(** * OctoPrint REST client: a shallow embedding of [octoprint_rest_api.py]

    The class [OctoPrint] of
    [custom_components/octoprint_hass/octoprint_rest_api.py] is modelled as
    a record of its four attributes, and each method as a computation in a
    small state-and-exception monad over the client object and the outside
    world (the HTTP server, the log of requests sent, the time slept and
    the standard output).  The only loop, the polling loop of
    [get_api_key], has no bound in the source and takes a fuel argument
    here. *)

From Stdlib Require Import ZArith Lia.
From stdpp Require Import base strings gmap list pretty.

Local Open Scope string_scope.
Local Open Scope Z_scope.

(** ** Python values

    What [Response.json()] can return, and what the attributes of the
    client can hold.  A [dict] keeps its insertion order. *)

#[local] Set Warnings "-register-all".

Inductive Value : Type :=
| VNone
| VBool (b : bool)
| VInt (z : Z)
| VFloat (literal : string)
| VStr (s : string)
| VList (items : list Value)
| VDict (entries : list (string * Value)).

Fixpoint dict_get (entries : list (string * Value)) (key : string) : option Value :=
  match entries with
  | [] => None
  | (k, v) :: rest => if String.eqb k key then Some v else dict_get rest key
  end.

Definition type_name (v : Value) : string :=
  match v with
  | VNone => "NoneType"
  | VBool _ => "bool"
  | VInt _ => "int"
  | VFloat _ => "float"
  | VStr _ => "str"
  | VList _ => "list"
  | VDict _ => "dict"
  end.

(** [key is not None] *)
Definition is_present (v : Value) : bool :=
  match v with
  | VNone => false
  | _ => true
  end.

(** ** Exceptions

    The classes the module names or can meet, with the part of the class
    hierarchy of Python and of [requests.exceptions] that the [except]
    clauses of the module depend on. *)

Inductive ExnClass : Type :=
| Exception
| ValueError
| KeyError
| TypeError
| JSONDecodeError
| RequestException
| Timeout
| ReadTimeout
| ConnectionError
| ConnectTimeout
| InvalidURL
| RecursionError.

Definition issubclass (c base : ExnClass) : bool :=
  match base with
  | Exception => true
  | ValueError =>
      match c with ValueError | JSONDecodeError | InvalidURL => true | _ => false end
  | KeyError => match c with KeyError => true | _ => false end
  | TypeError => match c with TypeError => true | _ => false end
  | JSONDecodeError => match c with JSONDecodeError => true | _ => false end
  | RequestException =>
      match c with
      | RequestException | Timeout | ReadTimeout | ConnectionError
      | ConnectTimeout | InvalidURL | JSONDecodeError => true
      | _ => false
      end
  | Timeout =>
      match c with Timeout | ReadTimeout | ConnectTimeout => true | _ => false end
  | ReadTimeout => match c with ReadTimeout => true | _ => false end
  | ConnectionError =>
      match c with ConnectionError | ConnectTimeout => true | _ => false end
  | ConnectTimeout => match c with ConnectTimeout => true | _ => false end
  | InvalidURL => match c with InvalidURL => true | _ => false end
  | RecursionError => match c with RecursionError => true | _ => false end
  end.

Record Exn : Type := mkExn { exn_class : ExnClass; exn_msg : string }.

Definition isinstance (e : Exn) (base : ExnClass) : bool :=
  issubclass (exn_class e) base.

(** ** HTTP requests and responses *)

Inductive Method : Type := GET | POST.

Record Request : Type := mkRequest {
  rq_method : Method;
  rq_url : string;
  rq_headers : gmap string Value;
  rq_json : option Value;
  rq_timeout : Z
}.

(** A response carries its status code, what [.json()] makes of its
    body ([None] when it makes nothing of it) and the exception that
    [.json()] raises in that case.  That exception is the decoding error
    of [requests] for most bodies that do not parse, and that one is a
    [ValueError]; it is a plain [ValueError] for an integer literal beyond
    the conversion limit of the interpreter, and [RecursionError], which is
    no [ValueError], for a body nested deeper than the interpreter
    recurses. *)
Record Response : Type := mkResponseWith {
  status_code : Z;
  body : option Value;
  decode_error : Exn
}.

(** The response whose body, where it does not parse, raises the decoding
    error. *)
Definition mkResponse (status : Z) (payload : option Value) : Response :=
  mkResponseWith status payload (mkExn JSONDecodeError "Expecting value").

(** What a call of [requests.get] or [requests.post] comes back with. *)
Inductive Outcome : Type :=
| Responded (r : Response)
| Failed (e : Exn).

(** ** The client object and the world around it *)

Record OctoPrint : Type := mkOctoPrint {
  base_url : string;
  headers : gmap string Value;
  api_key : Value;
  connected : bool
}.

(** The server answers the [n]-th request of a run with [server n]. *)
Record World : Type := mkWorld {
  server : nat -> Outcome;
  log : list Request;
  slept : nat;
  stdout : list string
}.

Definition sent (w : World) (rq : Request) : World :=
  {| server := server w; log := log w ++ [rq]; slept := slept w; stdout := stdout w |}.

Definition asleep (secs : nat) (w : World) : World :=
  {| server := server w; log := log w; slept := (slept w + secs)%nat; stdout := stdout w |}.

Definition printed (line : string) (w : World) : World :=
  {| server := server w; log := log w; slept := slept w; stdout := stdout w ++ [line] |}.

(** ** The monad of methods *)

Inductive Result (A : Type) : Type :=
| Returned (a : A)
| Raised (e : Exn)
| OutOfFuel.
Arguments Returned {A} a.
Arguments Raised {A} e.
Arguments OutOfFuel {A}.

Definition M (A : Type) : Type := OctoPrint -> World -> Result A * OctoPrint * World.

Definition ret {A} (a : A) : M A := fun self w => (Returned a, self, w).

Definition bind {A B} (m : M A) (k : A -> M B) : M B :=
  fun self w =>
    match m self w with
    | (Returned a, self', w') => k a self' w'
    | (Raised e, self', w') => (Raised e, self', w')
    | (OutOfFuel, self', w') => (OutOfFuel, self', w')
    end.

Definition raise {A} (c : ExnClass) (msg : string) : M A :=
  fun self w => (Raised (mkExn c msg), self, w).

(** An exception object that comes from elsewhere is raised as it is. *)
Definition raise_exn {A} (e : Exn) : M A := fun self w => (Raised e, self, w).

Definition out_of_fuel {A} : M A := fun self w => (OutOfFuel, self, w).

(** [try: m except c1: h1 except c2: h2 ...]: the first clause whose class
    the exception is an instance of handles it, and what a handler raises
    is not offered to the other clauses.  No handler of the module names
    the exception it catches. *)
Fixpoint first_handler {A} (e : Exn) (clauses : list (ExnClass * M A)) : option (M A) :=
  match clauses with
  | [] => None
  | (base, handler) :: rest =>
      if isinstance e base then Some handler else first_handler e rest
  end.

Definition try_except {A} (m : M A) (clauses : list (ExnClass * M A)) : M A :=
  fun self w =>
    match m self w with
    | (Raised e, self', w') =>
        match first_handler e clauses with
        | Some handler => handler self' w'
        | None => (Raised e, self', w')
        end
    | other => other
    end.

Definition get_self : M OctoPrint := fun self w => (Returned self, self, w).

Definition set_self (f : OctoPrint -> OctoPrint) : M unit :=
  fun self w => (Returned tt, f self, w).

Declare Scope py_scope.
Delimit Scope py_scope with py.
Notation "'let!' x ':=' m 'in' k" := (bind m (fun x => k))
  (at level 10, x name, m at level 100, k at level 200) : py_scope.
Notation "m ';;' k" := (bind m (fun _ => k))
  (at level 100, k at level 200, right associativity) : py_scope.
Local Open Scope py_scope.

(** ** Primitives of the Python run time and of [requests] *)

Definition http (rq : Request) : M Response :=
  fun self w =>
    match server w (length (log w)) with
    | Responded r => (Returned r, self, sent w rq)
    | Failed e => (Raised e, self, sent w rq)
    end.

Definition requests_get (url : string) (hdrs : gmap string Value) (timeout : Z) : M Response :=
  http (mkRequest GET url hdrs None timeout).

Definition requests_post (url : string) (hdrs : gmap string Value) (json : Value)
    (timeout : Z) : M Response :=
  http (mkRequest POST url hdrs (Some json) timeout).

Definition time_sleep (secs : nat) : M unit :=
  fun self w => (Returned tt, self, asleep secs w).

Definition print (line : string) : M unit :=
  fun self w => (Returned tt, self, printed line w).

(** [response.json()] *)
Definition json (response : Response) : M Value :=
  match body response with
  | Some v => ret v
  | None => raise_exn (decode_error response)
  end.

(** [v[key]] for a string [key] *)
Definition getitem (v : Value) (key : string) : M Value :=
  match v with
  | VDict entries =>
      match dict_get entries key with
      | Some x => ret x
      | None => raise KeyError key
      end
  | VList _ => raise TypeError "list indices must be integers or slices, not str"
  | VStr _ => raise TypeError "string indices must be integers"
  | _ => raise TypeError ("'" +:+ type_name v +:+ "' object is not subscriptable")
  end.

Definition dquote : string := String (Ascii.ascii_of_nat 34) EmptyString.

(** [s + v] for a string [s] *)
Definition str_add (s : string) (v : Value) : M string :=
  match v with
  | VStr t => ret (s +:+ t)
  | _ =>
      raise TypeError
        ("can only concatenate str (not " +:+ dquote +:+ type_name v +:+ dquote +:+ ") to str")
  end.

(** ** The class [OctoPrint] *)

(** [OctoPrint(host, port, path)]; [path] defaults to ["/"] in the source. *)
Definition __init__ (host : string) (port : Z) (path : string) : OctoPrint :=
  {| base_url := "http://" +:+ host +:+ ":" +:+ pretty port +:+ path;
     headers := ∅;
     api_key := VNone;
     connected := false |}.

Definition with_api_key (key : Value) (self : OctoPrint) : OctoPrint :=
  {| base_url := base_url self; headers := headers self;
     api_key := key; connected := connected self |}.

Definition with_headers (hdrs : gmap string Value) (self : OctoPrint) : OctoPrint :=
  {| base_url := base_url self; headers := hdrs;
     api_key := api_key self; connected := connected self |}.

Definition with_connected (b : bool) (self : OctoPrint) : OctoPrint :=
  {| base_url := base_url self; headers := headers self;
     api_key := api_key self; connected := b |}.

Definition _set_api_key (key : Value) : M Value :=
  set_self (with_api_key key) ;;
  set_self (fun self => with_headers {[ "X-Api-Key" := api_key self ]} self) ;;
  ret (VBool true).

(** The body of [while response.status_code == 202] in [get_api_key],
    followed by the [return False] that the method ends with. *)
Fixpoint poll_while_202 (fuel : nat) (app_token : Value) (timeout : Z)
    (response : Response) : M Value :=
  if status_code response =? 202 then
    match fuel with
    | O => out_of_fuel
    | S fuel' =>
        let! self := get_self in
        let! url := str_add (base_url self +:+ "plugin/appkeys/request/") app_token in
        let! response := requests_get url (headers self) timeout in
        time_sleep 1 ;;
        if status_code response =? 200 then
          let! payload := json response in
          let! key := getitem payload "api_key" in
          _set_api_key key ;;
          set_self (with_connected true) ;;
          ret (VBool true)
        else if status_code response =? 404 then
          raise Exception "User denied access"
        else
          poll_while_202 fuel' app_token timeout response
    end
  else
    ret (VBool false).

Definition get_api_key (fuel : nat) (app_name user_name : Value) (timeout : Z) : M Value :=
  let! self := get_self in
  let! response :=
    try_except
      (requests_get (base_url self +:+ "plugin/appkeys/probe") (headers self) timeout)
      [(ReadTimeout, raise ReadTimeout "Could not connect to server, no response");
       (ConnectionError,
        raise ConnectionError "Could not connect to server, connection refused")] in
  if status_code response =? 204 then
    let! self := get_self in
    let! response :=
      requests_post (base_url self +:+ "plugin/appkeys/request") (headers self)
        (VDict [("app", app_name); ("user", user_name)]) timeout in
    if status_code response =? 201 then
      let! payload := json response in
      let! app_token := getitem payload "app_token" in
      let! self := get_self in
      let! url := str_add (base_url self +:+ "plugin/appkeys/request/") app_token in
      let! response := requests_get url (headers self) timeout in
      poll_while_202 fuel app_token timeout response
    else
      raise Exception "User not created"
  else
    raise Exception "Instance does not seem to support Application Keys Plugin".

(** [deregister]: the [try] block either returns (some value) or falls
    through to the [return False] after it (no value), as does the handler. *)
Definition deregister : M Value :=
  let! returned :=
    try_except
      (let! self := get_self in
       let! response :=
         requests_post (base_url self +:+ "api/plugin/appkeys") (headers self)
           (VDict [("command", VStr "revoke"); ("key", api_key self)]) 1 in
       if status_code response =? 204 then
         set_self (with_connected false) ;;
         ret (Some (VBool true))
       else
         ret None)
      [(ConnectionError, print "Could not connect." ;; ret None)] in
  match returned with
  | Some v => ret v
  | None => ret (VBool false)
  end.

(** The body shared, word for word but for the sub-path, by the fifteen
    read methods:
    [try: return requests.get(url=self.base_url+sub, headers=self.headers,
    timeout=9).json()  except ValueError: return False]. *)
Definition get_json_or_False (sub : string) : M Value :=
  try_except
    (let! self := get_self in
     let! response := requests_get (base_url self +:+ sub) (headers self) 9 in
     json response)
    [(ValueError, ret (VBool false))].

Definition retrieve_appkeys : M Value := get_json_or_False "api/plugin/appkeys".
Definition get_printer_version : M Value := get_json_or_False "api/version".
Definition get_printer_status : M Value := get_json_or_False "api/printer".
Definition get_printer_connection : M Value := get_json_or_False "api/connection".
Definition get_printer_files : M Value := get_json_or_False "api/files?recursive=true".
Definition get_printer_job : M Value := get_json_or_False "api/job".
Definition get_printer_tool_state : M Value := get_json_or_False "api/printer/tool".
Definition get_printer_bed_state : M Value := get_json_or_False "api/printer/bed".
Definition get_printer_chamber_state : M Value := get_json_or_False "api/printer/chamber".
Definition get_printer_sd_state : M Value := get_json_or_False "api/printer/sd".
Definition get_printer_profiles : M Value := get_json_or_False "api/printerprofiles".
Definition get_printer_settings : M Value := get_json_or_False "api/settings".
Definition get_slicing : M Value := get_json_or_False "api/slicing".
Definition get_system_commands : M Value := get_json_or_False "api/system/commands".
Definition get_timelapse : M Value := get_json_or_False "api/timelapse".

(** What a method hands back: a Python value, or the [Response] object
    itself ([pause_print], [resume_print], [set_printer_settings]). *)
Inductive PyObj : Type :=
| OValue (v : Value)
| OResponse (r : Response).

(** The body shared by [pause_print] and [resume_print], which differ in
    the ["action"] they post. *)
Definition post_job_command (action : string) : M PyObj :=
  let! self := get_self in
  if connected self then
    try_except
      (let! self := get_self in
       let! response :=
         requests_post (base_url self +:+ "api/job") (headers self)
           (VDict [("command", VStr "pause"); ("action", VStr action)]) 9 in
       ret (OResponse response))
      [(ConnectionError, print "Connection refused." ;; ret (OValue (VBool false)))]
  else
    ret (OValue (VBool false)).

Definition pause_print : M PyObj := post_job_command "pause".
Definition resume_print : M PyObj := post_job_command "resume".

Definition set_printer_settings : M PyObj :=
  let! self := get_self in
  let! response :=
    requests_post (base_url self +:+ "api/settings") (headers self)
      (VDict [("appearance", VDict [("color", VStr "green")])]) 9 in
  ret (OResponse response).

(** ** Calls from outside

    The names of the fifteen read methods, and of all the methods a caller
    of the class can invoke, with their arguments. *)

Inductive ReadMethod : Type :=
| Retrieve_appkeys
| Get_printer_version
| Get_printer_status
| Get_printer_connection
| Get_printer_files
| Get_printer_job
| Get_printer_tool_state
| Get_printer_bed_state
| Get_printer_chamber_state
| Get_printer_sd_state
| Get_printer_profiles
| Get_printer_settings
| Get_slicing
| Get_system_commands
| Get_timelapse.

Definition read (m : ReadMethod) : M Value :=
  match m with
  | Retrieve_appkeys => retrieve_appkeys
  | Get_printer_version => get_printer_version
  | Get_printer_status => get_printer_status
  | Get_printer_connection => get_printer_connection
  | Get_printer_files => get_printer_files
  | Get_printer_job => get_printer_job
  | Get_printer_tool_state => get_printer_tool_state
  | Get_printer_bed_state => get_printer_bed_state
  | Get_printer_chamber_state => get_printer_chamber_state
  | Get_printer_sd_state => get_printer_sd_state
  | Get_printer_profiles => get_printer_profiles
  | Get_printer_settings => get_printer_settings
  | Get_slicing => get_slicing
  | Get_system_commands => get_system_commands
  | Get_timelapse => get_timelapse
  end.

(** The sub-path each read method appends to the base URL (read off the
    method bodies; [read_sub_path_correct] below ties it to them). *)
Definition read_sub_path (m : ReadMethod) : string :=
  match m with
  | Retrieve_appkeys => "api/plugin/appkeys"
  | Get_printer_version => "api/version"
  | Get_printer_status => "api/printer"
  | Get_printer_connection => "api/connection"
  | Get_printer_files => "api/files?recursive=true"
  | Get_printer_job => "api/job"
  | Get_printer_tool_state => "api/printer/tool"
  | Get_printer_bed_state => "api/printer/bed"
  | Get_printer_chamber_state => "api/printer/chamber"
  | Get_printer_sd_state => "api/printer/sd"
  | Get_printer_profiles => "api/printerprofiles"
  | Get_printer_settings => "api/settings"
  | Get_slicing => "api/slicing"
  | Get_system_commands => "api/system/commands"
  | Get_timelapse => "api/timelapse"
  end.

Inductive Call : Type :=
| Call_set_api_key (key : Value)
| Call_get_api_key (fuel : nat) (app_name user_name : Value) (timeout : Z)
| Call_deregister
| Call_read (m : ReadMethod)
| Call_pause_print
| Call_resume_print
| Call_set_printer_settings.

Definition as_obj (m : M Value) : M PyObj :=
  let! v := m in ret (OValue v).

Definition call (c : Call) : M PyObj :=
  match c with
  | Call_set_api_key key => as_obj (_set_api_key key)
  | Call_get_api_key fuel app_name user_name timeout =>
      as_obj (get_api_key fuel app_name user_name timeout)
  | Call_deregister => as_obj deregister
  | Call_read m => as_obj (read m)
  | Call_pause_print => pause_print
  | Call_resume_print => resume_print
  | Call_set_printer_settings => set_printer_settings
  end.

(** The object and the world after a series of calls, whatever each call
    returned or raised. *)
Fixpoint after_calls (cs : list Call) (self : OctoPrint) (w : World) : OctoPrint * World :=
  match cs with
  | [] => (self, w)
  | c :: rest =>
      let '(_, self', w') := call c self w in after_calls rest self' w'
  end.

(** A world in which nothing has happened yet. *)
Definition fresh (srv : nat -> Outcome) : World :=
  {| server := srv; log := []; slept := 0; stdout := [] |}.

(** A server that gives the listed outcomes in turn and refuses every
    connection after them. *)
Definition scripted (outcomes : list Outcome) : nat -> Outcome :=
  fun n => nth n outcomes (Failed (mkExn ConnectionError "Connection refused")).

Definition reply (status : Z) (payload : option Value) : Outcome :=
  Responded (mkResponse status payload).

(** A response whose body makes [.json()] raise [e]. *)
Definition reply_raising (status : Z) (e : Exn) : Outcome :=
  Responded (mkResponseWith status None e).

(** The requests of the handshake and of revocation, as the methods build
    them. *)
Definition probe_request (self : OctoPrint) (timeout : Z) : Request :=
  mkRequest GET (base_url self +:+ "plugin/appkeys/probe") (headers self) None timeout.

Definition token_request (self : OctoPrint) (app_name user_name : Value) (timeout : Z) : Request :=
  mkRequest POST (base_url self +:+ "plugin/appkeys/request") (headers self)
    (Some (VDict [("app", app_name); ("user", user_name)])) timeout.

Definition poll_request (self : OctoPrint) (app_token : string) (timeout : Z) : Request :=
  mkRequest GET ((base_url self +:+ "plugin/appkeys/request/") +:+ app_token)
    (headers self) None timeout.

Definition revoke_request (self : OctoPrint) : Request :=
  mkRequest POST (base_url self +:+ "api/plugin/appkeys") (headers self)
    (Some (VDict [("command", VStr "revoke"); ("key", api_key self)])) 1.

Definition read_request (self : OctoPrint) (m : ReadMethod) : Request :=
  mkRequest GET (base_url self +:+ read_sub_path m) (headers self) None 9.

(** [response.json()[name]] where it is defined: the body parses to a
    [dict] that has the key. *)
Definition field (response : Response) (name : string) : option Value :=
  match body response with
  | Some (VDict entries) => dict_get entries name
  | _ => None
  end.

(** The object after an approved handshake that delivered [key]. *)
Definition approved (key : Value) (self : OctoPrint) : OctoPrint :=
  {| base_url := base_url self;
     headers := {[ "X-Api-Key" := key ]};
     api_key := key;
     connected := true |}.

(** ** Vocabulary of the properties *)

(** The world after one more round of the loop: one poll, one second. *)
Definition polled (app_token : string) (timeout : Z) (self : OctoPrint) (w : World) : World :=
  asleep 1 (sent w (poll_request self app_token timeout)).

(** The world once the probe, the token request and the first poll have
    been sent. *)
Definition first_polled (app_name user_name : Value) (timeout : Z) (self : OctoPrint)
    (w : World) (app_token : string) : World :=
  sent (sent (sent w (probe_request self timeout))
          (token_request self app_name user_name timeout))
    (poll_request self app_token timeout).

(** The handshake leaves the object as it was, or as an approval with a
    key that the server sent in a 200 response leaves it. *)
Definition handshake_object (srv : nat -> Outcome) (self self' : OctoPrint) : Prop :=
  self' = self
  \/ exists n r key,
       srv n = Responded r /\ status_code r = 200
       /\ field r "api_key" = Some key /\ self' = approved key self.

(** The requests of a handshake made by [self]. *)
Definition handshake_request (self : OctoPrint) (app_name user_name : Value) (timeout : Z)
    (rq : Request) : Prop :=
  rq = probe_request self timeout
  \/ rq = token_request self app_name user_name timeout
  \/ exists app_token, rq = poll_request self app_token timeout.

(** A method adds [new] to the log, each request in it satisfying [P]. *)
Definition logs (P : Request -> Prop) (w w' : World) : Prop :=
  exists new, log w' = (log w ++ new)%list /\ Forall P new.

(** The server is the same, the object is as a handshake leaves it, and
    only requests of the handshake were logged. *)
Definition handshake_effect (app_name user_name : Value) (timeout : Z)
    (self : OctoPrint) (w : World) (self' : OctoPrint) (w' : World) : Prop :=
  server w' = server w
  /\ handshake_object (server w) self self'
  /\ logs (handshake_request self app_name user_name timeout) w w'.

Definition job_request (self : OctoPrint) (action : string) : Request :=
  mkRequest POST (base_url self +:+ "api/job") (headers self)
    (Some (VDict [("command", VStr "pause"); ("action", VStr action)])) 9.

Definition settings_request (self : OctoPrint) : Request :=
  mkRequest POST (base_url self +:+ "api/settings") (headers self)
    (Some (VDict [("appearance", VDict [("color", VStr "green")])])) 9.

(** The object after a call, in terms of the object before it. *)
Definition object_after (srv : nat -> Outcome) (c : Call) (self self' : OctoPrint) : Prop :=
  match c with
  | Call_set_api_key key =>
      self' = {| base_url := base_url self;
                 headers := {[ "X-Api-Key" := key ]};
                 api_key := key;
                 connected := connected self |}
  | Call_get_api_key _ _ _ _ => handshake_object srv self self'
  | Call_deregister => self' = self \/ self' = with_connected false self
  | _ => self' = self
  end.

(** The requests a call can send. *)
Definition request_of (c : Call) (self : OctoPrint) (rq : Request) : Prop :=
  match c with
  | Call_set_api_key _ => False
  | Call_get_api_key _ app_name user_name timeout =>
      handshake_request self app_name user_name timeout rq
  | Call_deregister => rq = revoke_request self
  | Call_read m => rq = read_request self m
  | Call_pause_print => rq = job_request self "pause"
  | Call_resume_print => rq = job_request self "resume"
  | Call_set_printer_settings => rq = settings_request self
  end.

Definition credential_invariant (self : OctoPrint) : Prop :=
  connected self = true -> is_present (api_key self) = true.

(** The call passes no [None] where it passes a key. *)
Definition passes_a_key (c : Call) : bool :=
  match c with
  | Call_set_api_key key => is_present key
  | _ => true
  end.

(** The outcome is not a response whose body has a null ["api_key"]. *)
Definition null_key_free (o : Outcome) : bool :=
  match o with
  | Responded r =>
      match field r "api_key" with
      | Some VNone => false
      | _ => true
      end
  | Failed _ => true
  end.

Definition sends_no_null_key (srv : nat -> Outcome) : Prop :=
  forall n, null_key_free (srv n) = true.

(** The sub-paths each call appends to the base URL; the polls of the
    handshake end in the token of the request. *)
Definition sub_path (c : Call) (sub : string) : Prop :=
  match c with
  | Call_set_api_key _ => False
  | Call_get_api_key _ _ _ _ =>
      sub = "plugin/appkeys/probe"
      \/ sub = "plugin/appkeys/request"
      \/ exists app_token, sub = "plugin/appkeys/request/" +:+ app_token
  | Call_deregister => sub = "api/plugin/appkeys"
  | Call_read m => sub = read_sub_path m
  | Call_pause_print => sub = "api/job"
  | Call_resume_print => sub = "api/job"
  | Call_set_printer_settings => sub = "api/settings"
  end.

Definition url_under (base : string) (c : Call) (rq : Request) : Prop :=
  exists sub, sub_path c sub /\ rq_url rq = base +:+ sub.

(** Scenarios: the object is the one built by [OctoPrint("h", 81, "/x/")],
    the call is [get_api_key("test")] with its default user and timeout,
    and the server follows one of the scripts below. *)
Definition granted_token : Outcome :=
  reply 201 (Some (VDict [("app_token", VStr "tok")])).

Definition granted_key : Outcome :=
  reply 200 (Some (VDict [("api_key", VStr "k")])).

Definition script_202_202_200 : list Outcome :=
  [reply 204 None; granted_token; reply 202 None; reply 202 None; granted_key].

Definition script_immediate_200 : list Outcome :=
  [reply 204 None; granted_token; granted_key].

Definition script_immediate_404 : list Outcome :=
  [reply 204 None; granted_token; reply 404 None].

Definition script_202_404 : list Outcome :=
  [reply 204 None; granted_token; reply 202 None; reply 404 None].

Definition script_null_key : list Outcome :=
  [reply 204 None; granted_token; reply 202 None;
   reply 200 (Some (VDict [("api_key", VNone)]))].

Definition new_client : OctoPrint := __init__ "h" 81 "/x/".

(** What the parser raises on a body nested deeper than it recurses, and a
    server that answers with such a body. *)
Definition too_deep : Exn :=
  mkExn RecursionError
    "maximum recursion depth exceeded while decoding a JSON array from a unicode string".

Definition script_too_deep : list Outcome := [reply_raising 200 too_deep].

(** A client that holds a key and is connected, as a handshake with key
    ["k"] leaves the object built by [OctoPrint("h", 81, "/x/")]. *)
Definition connected_client : OctoPrint :=
  {| base_url := "http://h:81/x/";
     headers := {[ "X-Api-Key" := VStr "k" ]};
     api_key := VStr "k";
     connected := true |}.

Definition probe_h : Request :=
  mkRequest GET "http://h:81/x/plugin/appkeys/probe" ∅ None 9.

Definition request_h : Request :=
  mkRequest POST "http://h:81/x/plugin/appkeys/request" ∅
    (Some (VDict [("app", VStr "test"); ("user", VNone)])) 9.

Definition poll_h : Request :=
  mkRequest GET "http://h:81/x/plugin/appkeys/request/tok" ∅ None 9.

(** ** Vocabulary of the further properties *)

(** What the [except] clauses around the probe make of an exception. *)
Definition probe_failure (e : Exn) : Exn :=
  if isinstance e ReadTimeout
  then mkExn ReadTimeout "Could not connect to server, no response"
  else if isinstance e ConnectionError
  then mkExn ConnectionError "Could not connect to server, connection refused"
  else e.

(** [e] is the exception that [response.json()[name]] raises when
    [field response name] is undefined: the exception of the parser for a
    body that does not parse, [KeyError(name)] for a [dict] without the
    key, a [TypeError] for a body that is no [dict]. *)
Definition field_error (response : Response) (name : string) (e : Exn) : Prop :=
  match body response with
  | None => e = decode_error response
  | Some (VDict _) => e = mkExn KeyError name
  | Some _ => exn_class e = TypeError
  end.

(** The world once the probe and the token request have been sent. *)
Definition token_requested (app_name user_name : Value) (timeout : Z) (self : OctoPrint)
    (w : World) : World :=
  sent (sent w (probe_request self timeout)) (token_request self app_name user_name timeout).

(** The world after [k] rounds of the loop. *)
Definition polled_n (k : nat) (app_token : string) (timeout : Z) (self : OctoPrint)
    (w : World) : World :=
  Nat.iter k (polled app_token timeout self) w.

(** The probe is answered 204 and the token request 201 with the string
    token [app_token]. *)
Definition token_granted (w : World) (app_token : string) : Prop :=
  exists r1 r2,
    server w (length (log w)) = Responded r1 /\ status_code r1 = 204
    /\ server w (S (length (log w))) = Responded r2 /\ status_code r2 = 201
    /\ field r2 "app_token" = Some (VStr app_token).

(** The first [k] polls of the handshake are answered 202. *)
Definition pending_polls (w : World) (k : nat) : Prop :=
  forall i, (i < k)%nat ->
    exists r, server w (length (log w) + 2 + i) = Responded r /\ status_code r = 202.

(** The world after a handshake that sent the probe, the token request and
    [polls] polls, and slept [rounds] times. *)
Definition handshake_world (app_name user_name : Value) (timeout : Z) (self : OctoPrint)
    (w : World) (app_token : string) (polls rounds : nat) : World :=
  {| server := server w;
     log := log w ++ [probe_request self timeout;
                      token_request self app_name user_name timeout]
              ++ replicate polls (poll_request self app_token timeout);
     slept := slept w + rounds;
     stdout := stdout w |}.

(** Further scenarios. *)
Definition script_no_plugin : list Outcome := [reply 404 None].

Definition script_probe_timeout : list Outcome :=
  [Failed (mkExn ReadTimeout "Read timed out.")].

Definition script_probe_connect_timeout : list Outcome :=
  [Failed (mkExn ConnectTimeout "Connection to h timed out.")].

Definition script_not_created : list Outcome := [reply 204 None; reply 403 None].

Definition script_request_refused : list Outcome := [reply 204 None].

Definition script_token_number : list Outcome :=
  [reply 204 None; reply 201 (Some (VDict [("app_token", VInt 7)]))].

Definition script_202_500 : list Outcome :=
  [reply 204 None; granted_token; reply 202 None; reply 500 None].

Definition script_202_200_no_key : list Outcome :=
  [reply 204 None; granted_token; reply 202 None; reply 200 (Some (VDict []))].

Definition script_202_dropped : list Outcome :=
  [reply 204 None; granted_token; reply 202 None].

(** A server on which nobody ever answers the request for access: every
    poll is answered 202. *)
Definition never_decided (n : nat) : Outcome :=
  match n with
  | O => reply 204 None
  | S O => granted_token
  | _ => reply 202 None
  end.

Definition script_202_200 : list Outcome :=
  [reply 204 None; granted_token; reply 202 None; granted_key].

(** The server sends, at some time, a 200 response that delivers [key]. *)
Definition approves (srv : nat -> Outcome) (key : Value) : Prop :=
  exists n r, srv n = Responded r /\ status_code r = 200 /\ field r "api_key" = Some key.

(** What [get_api_key] returned, against what it did to the object: it
    returned [True] and stored a key that the server delivered, or it did
    not return [True] and the object is as it was. *)
Definition stores_on_success (srv : nat -> Outcome) (self : OctoPrint)
    (result : Result Value) (self' : OctoPrint) : Prop :=
  (result = Returned (VBool true)
   /\ exists key, approves srv key /\ self' = approved key self)
  \/ (result <> Returned (VBool true) /\ self' = self).

(** The header set is the one [_set_api_key] derives from the stored key,
    or there is neither key nor header. *)
Definition headers_in_sync (self : OctoPrint) : Prop :=
  (headers self = ∅ /\ api_key self = VNone)
  \/ headers self = {[ "X-Api-Key" := api_key self ]}.

Definition is_handshake (c : Call) : bool :=
  match c with
  | Call_get_api_key _ _ _ _ => true
  | _ => false
  end.

Definition script_refused_read_timeout : list Outcome :=
  [Failed (mkExn ReadTimeout "Read timed out. (read timeout=1)")].

Definition script_invalid_url : list Outcome :=
  [Failed (mkExn InvalidURL "Failed to parse URL")].

Definition script_version : list Outcome :=
  [reply 200 (Some (VDict [("api", VStr "0.1"); ("server", VStr "1.3.10")]))].

Definition script_conflict : list Outcome := [reply 409 None].

(** ** [test_op_api.py]

    [main] builds [OctoPrint("192.168.1.212", 5000)], runs the handshake
    for the application ["test"], prints the key and prints the printer
    status.  [str] is the conversion that [print] applies to each of its
    arguments before it joins them with a blank. *)
Definition main (str : Value -> string) (fuel : nat) (w : World)
    : Result Value * OctoPrint * World :=
  (get_api_key fuel (VStr "test") VNone 9 ;;
   let! OP := get_self in
   print ("Got: %s" +:+ " " +:+ str (api_key OP)) ;;
   let! status := get_printer_status in
   print (str status) ;;
   ret VNone) (__init__ "192.168.1.212" 5000 "/") w.

(** A conversion for the examples, which is [str] of Python on [None],
    the booleans, the integers and the strings. *)
Definition sample_str (v : Value) : string :=
  match v with
  | VNone => "None"
  | VBool true => "True"
  | VBool false => "False"
  | VInt z => pretty z
  | VStr s => s
  | _ => "<" +:+ type_name v +:+ ">"
  end.

Definition test_client : OctoPrint := __init__ "192.168.1.212" 5000 "/".

Definition script_main_immediate_200 : list Outcome :=
  [reply 204 None; granted_token; granted_key; reply 403 (Some (VStr "Forbidden"))].

Definition script_main_too_deep : list Outcome :=
  [reply 204 None; granted_token; granted_key; reply_raising 200 too_deep].

(** ** [config_flow.py]

    The flow handler keeps one attribute, [_errors].  Of the platform it
    runs on, the steps look at two things only: the list that
    [self._async_current_entries()] returns and the truth value of
    [self.hass.data.get(DOMAIN)].  What [async_abort],
    [async_create_entry] and [async_show_form] return is kept as the
    arguments they were called with. *)

Record OctoprintFlowHandler : Type := mkFlowHandler {
  _errors : gmap string string
}.

Record ConfigEntry : Type := mkConfigEntry {
  entry_title : string;
  entry_data : list (string * Value)
}.

Record Platform : Type := mkPlatform {
  current_entries : list ConfigEntry;
  domain_data : bool
}.

(** [vol.Required(name, default=default)] *)
Record Required : Type := mkRequired {
  schema_key : string;
  schema_default : Value
}.

Inductive PyType : Type := Str.

Inductive FlowResult : Type :=
| Abort (reason : string)
| CreateEntry (title : string) (data : list (string * Value))
| ShowForm (step_id : string) (data_schema : list (Required * PyType))
    (errors : gmap string string).

(** Steps of the flow: a computation over the handler that returns or
    raises. *)
Definition Flow (A : Type) : Type :=
  OctoprintFlowHandler -> Result A * OctoprintFlowHandler.

Definition flow_ret {A} (a : A) : Flow A := fun self => (Returned a, self).

Definition flow_bind {A B} (m : Flow A) (k : A -> Flow B) : Flow B :=
  fun self =>
    match m self with
    | (Returned a, self') => k a self'
    | (Raised e, self') => (Raised e, self')
    | (OutOfFuel, self') => (OutOfFuel, self')
    end.

(** A computation that does not touch the handler. *)
Definition flow_of {A} (r : Result A) : Flow A := fun self => (r, self).

Definition get_errors : Flow (gmap string string) :=
  fun self => (Returned (_errors self), self).

Definition set_errors (errors : gmap string string) : Flow unit :=
  fun _ => (Returned tt, {| _errors := errors |}).

Declare Scope flow_scope.
Delimit Scope flow_scope with flow.
Notation "'let!' x ':=' m 'in' k" := (flow_bind m (fun x => k))
  (at level 10, x name, m at level 100, k at level 200) : flow_scope.
Notation "m ';;' k" := (flow_bind m (fun _ => k))
  (at level 100, k at level 200, right associativity) : flow_scope.

(** [d[key]] for a [dict] [d] *)
Definition dict_item (d : list (string * Value)) (key : string) : Result Value :=
  match dict_get d key with
  | Some v => Returned v
  | None => Raised (mkExn KeyError key)
  end.

(** [OctoprintFlowHandler()]: [__init__] sets [_errors] to the empty [dict]. *)
Definition flow_init : OctoprintFlowHandler := {| _errors := ∅ |}.

(** [self._test_credentials], called with the arguments [args]: the method
    is declared with the two parameters [username] and [password] after
    [self], so a call with any other number of arguments raises
    [TypeError] before the body runs; the body returns [True].  (The
    wording of the messages is not that of Python.) *)
Definition _test_credentials (args : list Value) : Result bool :=
  match args with
  | [username; password] => Returned true
  | _ =>
      Raised (mkExn TypeError
                ("_test_credentials() takes 2 arguments after self but "
                 +:+ pretty (Z.of_nat (length args)) +:+ " were given"))
  end.

(** [if key in user_input: var = user_input[key]] *)
Definition overridden (var : Value) (user_input : list (string * Value)) (key : string)
    : Value :=
  match dict_get user_input key with
  | Some v => v
  | None => var
  end.

Definition _show_config_form (user_input : option (list (string * Value)))
    : Flow FlowResult :=
  (let host := VStr "" in
   let port := VStr "" in
   let api_key := VStr "" in
   let '(host, port, api_key) :=
     match user_input with
     | Some d =>
         (overridden host d "host", overridden port d "port",
          overridden api_key d "api_key")
     | None => (host, port, api_key)
     end in
   let data_schema := [(mkRequired "host" host, Str); (mkRequired "port" port, Str)] in
   let! errors := get_errors in
   flow_ret (ShowForm "user" data_schema errors))%flow.

Definition async_step_user (platform : Platform)
    (user_input : option (list (string * Value))) : Flow FlowResult :=
  (set_errors ∅ ;;
   match current_entries platform with
   | _ :: _ => flow_ret (Abort "single_instance_allowed")
   | [] =>
       if domain_data platform then flow_ret (Abort "single_instance_allowed")
       else
         match user_input with
         | Some d =>
             let! host := flow_of (dict_item d "host") in
             let! port := flow_of (dict_item d "port") in
             let! api_key := flow_of (dict_item d "api_key") in
             let! valid := flow_of (_test_credentials [host; port; api_key]) in
             if valid : bool then flow_ret (CreateEntry "" d)
             else
               (let! errors := get_errors in
                set_errors (<["base" := "auth"]> errors) ;;
                _show_config_form user_input)
         | None => _show_config_form user_input
         end
   end)%flow.

Definition async_step_import (platform : Platform)
    (user_input : option (list (string * Value))) : Flow FlowResult :=
  match current_entries platform with
  | _ :: _ => flow_ret (Abort "single_instance_allowed")
  | [] => flow_ret (CreateEntry "configuration.yaml" [])
  end.

(** The names of the fields of a form. *)
Definition form_fields (result : Result FlowResult) : list string :=
  match result with
  | Returned (ShowForm _ data_schema _) => map (fun f => schema_key (fst f)) data_schema
  | _ => []
  end.

Definition idle : Platform := {| current_entries := []; domain_data := false |}.

(** The first of [keys] that the [dict] [d] lacks. *)
Fixpoint first_missing (d : list (string * Value)) (keys : list string) : option string :=
  match keys with
  | [] => None
  | key :: rest =>
      match dict_get d key with
      | Some _ => first_missing d rest
      | None => Some key
      end
  end.

(** ** Vocabulary of the request URLs *)

(** The requests that a handshake of [self] adds to the log: the probe
    alone, the probe and the token request, or these two and one poll or
    more for the token that the answer to the token request delivered. *)
Definition handshake_log (app_name user_name : Value) (timeout : Z) (self : OctoPrint)
    (w : World) (new : list Request) : Prop :=
  new = [probe_request self timeout]
  \/ new = [probe_request self timeout; token_request self app_name user_name timeout]
  \/ exists r2 app_token polls,
       server w (S (length (log w))) = Responded r2
       /\ field r2 "app_token" = Some (VStr app_token)
       /\ new = ([probe_request self timeout;
                  token_request self app_name user_name timeout]
                 ++ replicate (S polls) (poll_request self app_token timeout))%list.

(** The same, for the URLs under the base URL [base]. *)
Definition handshake_urls (base : string) (w : World) (urls : list string) : Prop :=
  urls = [base +:+ "plugin/appkeys/probe"]
  \/ urls = [base +:+ "plugin/appkeys/probe"; base +:+ "plugin/appkeys/request"]
  \/ exists r2 app_token polls,
       server w (S (length (log w))) = Responded r2
       /\ field r2 "app_token" = Some (VStr app_token)
       /\ urls = ([base +:+ "plugin/appkeys/probe"; base +:+ "plugin/appkeys/request"]
                  ++ replicate (S polls)
                       (base +:+ "plugin/appkeys/request/" +:+ app_token))%list.

(** The URLs, in order, of the requests that the call [c] on the object
    [self] in the world [w] sends: each is [base] followed by the
    sub-path of the call.  A read method, [deregister] and
    [set_printer_settings] send one request, a command one if the object
    is connected and none if not, [_set_api_key] none, and the handshake
    those of [handshake_urls]. *)
Definition sends_to (base : string) (c : Call) (self : OctoPrint) (w : World)
    (urls : list string) : Prop :=
  match c with
  | Call_set_api_key _ => urls = []
  | Call_get_api_key _ _ _ _ => handshake_urls base w urls
  | Call_deregister => urls = [base +:+ "api/plugin/appkeys"]
  | Call_read m => urls = [base +:+ read_sub_path m]
  | Call_pause_print => urls = if connected self then [base +:+ "api/job"] else []
  | Call_resume_print => urls = if connected self then [base +:+ "api/job"] else []
  | Call_set_printer_settings => urls = [base +:+ "api/settings"]
  end.

(** * Properties *)

(** ** The transport *)

Lemma http_responded rq self w r :
  server w (length (log w)) = Responded r ->
  http rq self w = (Returned r, self, sent w rq).
Proof. intros H. unfold http. now rewrite H. Qed.

Lemma http_failed rq self w e :
  server w (length (log w)) = Failed e ->
  http rq self w = (Raised e, self, sent w rq).
Proof. intros H. unfold http. now rewrite H. Qed.

Lemma length_log_sent w rq : length (log (sent w rq)) = S (length (log w)).
Proof. unfold sent; cbn. rewrite length_app; cbn. lia. Qed.

Lemma read_sub_path_correct m : read m = get_json_or_False (read_sub_path m).
Proof. now destruct m. Qed.

(** ** Credential assignment *)

Lemma _set_api_key_spec key self w :
  _set_api_key key self w =
    (Returned (VBool true),
     {| base_url := base_url self; headers := {[ "X-Api-Key" := key ]};
        api_key := key; connected := connected self |},
     w).
Proof. reflexivity. Qed.

(** C9: [_set_api_key] is idempotent.  Calling it twice with the same key
    gives the same returned value, the same client object (header set
    included) and the same world as calling it once. *)
Theorem set_api_key_idempotent key self w :
  (_set_api_key key ;; _set_api_key key) self w = _set_api_key key self w.
Proof. reflexivity. Qed.

(** ** Revocation *)

Section Deregister.
Variables (self : OctoPrint) (w : World).

Lemma deregister_responded r :
  server w (length (log w)) = Responded r ->
  deregister self w =
    if status_code r =? 204
    then (Returned (VBool true), with_connected false self, sent w (revoke_request self))
    else (Returned (VBool false), self, sent w (revoke_request self)).
Proof.
  intros Hr. unfold deregister, bind, try_except, get_self, requests_post.
  fold (revoke_request self). rewrite (http_responded _ _ _ _ Hr).
  destruct (status_code r =? 204); reflexivity.
Qed.

Lemma deregister_failed e :
  server w (length (log w)) = Failed e ->
  deregister self w =
    if isinstance e ConnectionError
    then (Returned (VBool false), self,
          printed "Could not connect." (sent w (revoke_request self)))
    else (Raised e, self, sent w (revoke_request self)).
Proof.
  intros He. unfold deregister, bind, try_except, get_self, requests_post.
  fold (revoke_request self). rewrite (http_failed _ _ _ _ He).
  unfold first_handler.
  destruct (isinstance e ConnectionError); reflexivity.
Qed.

(** C4: on a response with status 204 [deregister] sets [connected] to
    false (and nothing else of the object) and returns [True]; on a
    response with any other status it leaves the object as it was and
    returns [False]. *)
Theorem deregister_on_status r :
  server w (length (log w)) = Responded r ->
  (status_code r = 204 ->
     deregister self w =
       (Returned (VBool true),
        {| base_url := base_url self;
           headers := headers self;
           api_key := api_key self;
           connected := false |},
        sent w (revoke_request self)))
  /\ (status_code r <> 204 ->
     deregister self w =
       (Returned (VBool false), self, sent w (revoke_request self))).
Proof.
  intros Hr. rewrite (deregister_responded r Hr).
  destruct (Z.eqb_spec (status_code r) 204) as [Heq | Hne]; split; intros H;
    solve [reflexivity | contradiction].
Qed.

(** C5, as the code has it: [deregister] sends its revoke request
    whatever the stored key is, also when there is none; it is the one
    request of the call, and its body carries [self.api_key] as it is. *)
Theorem deregister_always_posts :
  log (snd (deregister self w)) = (log w ++ [revoke_request self])%list.
Proof.
  destruct (server w (length (log w))) as [r | e] eqn:Hs.
  - rewrite (deregister_responded r Hs). destruct (status_code r =? 204); reflexivity.
  - rewrite (deregister_failed e Hs). destruct (isinstance e ConnectionError); reflexivity.
Qed.
End Deregister.

Lemma deregister_on_status_witness :
  deregister connected_client (fresh (scripted [reply 204 None])) =
    (Returned (VBool true),
     {| base_url := "http://h:81/x/";
        headers := {[ "X-Api-Key" := VStr "k" ]};
        api_key := VStr "k";
        connected := false |},
     sent (fresh (scripted [reply 204 None])) (revoke_request connected_client))
  /\ deregister connected_client (fresh (scripted [reply 403 None])) =
    (Returned (VBool false), connected_client,
     sent (fresh (scripted [reply 403 None])) (revoke_request connected_client)).
Proof.
  split.
  - apply (deregister_on_status connected_client (fresh (scripted [reply 204 None]))
             (mkResponse 204 None)); reflexivity.
  - apply (deregister_on_status connected_client (fresh (scripted [reply 403 None]))
             (mkResponse 403 None)); [reflexivity | discriminate].
Defined.

(** C5 as stated fails: the object just constructed holds no key, and
    [deregister] still posts a revoke command, with a null key. *)
Lemma deregister_without_key_counterexample :
  let self := __init__ "h" 81 "/x/" in
  let w := fresh (scripted [reply 204 None]) in
  api_key self = VNone
  /\ log w = []
  /\ log (snd (deregister self w)) =
       [mkRequest POST "http://h:81/x/api/plugin/appkeys" ∅
          (Some (VDict [("command", VStr "revoke"); ("key", VNone)])) 1].
Proof. repeat split. Qed.

(** ** Commands *)

(** C6: while [connected] is false, [pause_print] and [resume_print]
    return [False] and leave the object and the world as they were: no
    request joins the log, so no HTTP call is made. *)
Theorem pause_resume_disconnected self w :
  connected self = false ->
  pause_print self w = (Returned (OValue (VBool false)), self, w)
  /\ resume_print self w = (Returned (OValue (VBool false)), self, w).
Proof.
  intros Hc. unfold pause_print, resume_print, post_job_command, bind, get_self.
  now rewrite Hc.
Qed.

Lemma pause_resume_disconnected_witness :
  let self := __init__ "h" 81 "/x/" in
  let w := fresh (scripted [reply 204 None]) in
  pause_print self w = (Returned (OValue (VBool false)), self, w)
  /\ resume_print self w = (Returned (OValue (VBool false)), self, w).
Proof.
  apply (pause_resume_disconnected (__init__ "h" 81 "/x/")
           (fresh (scripted [reply 204 None]))).
  reflexivity.
Defined.

(** ** Read methods *)

Lemma get_json_or_False_responded sub self w r :
  server w (length (log w)) = Responded r ->
  get_json_or_False sub self w =
    (match body r with
     | Some v => Returned v
     | None =>
         if isinstance (decode_error r) ValueError
         then Returned (VBool false)
         else Raised (decode_error r)
     end, self,
     sent w (mkRequest GET (base_url self +:+ sub) (headers self) None 9)).
Proof.
  intros Hr. unfold get_json_or_False, bind, try_except, get_self, requests_get.
  rewrite (http_responded _ _ _ _ Hr). unfold json, raise_exn, first_handler.
  destruct (body r); [reflexivity|].
  destruct (isinstance (decode_error r) ValueError); reflexivity.
Qed.

(** C3, as the code has it: a read method whose response has a body that
    does not parse returns [False], with the object as it was and the one
    GET request in the log, when the exception of the parser is a
    [ValueError], as the decoding error is; an exception of the parser
    that is no [ValueError] (the [RecursionError] of a body nested too
    deep) is not caught and comes out of the method. *)
Theorem read_malformed_body m self w r :
  server w (length (log w)) = Responded r ->
  body r = None ->
  (isinstance (decode_error r) ValueError = true ->
     read m self w = (Returned (VBool false), self, sent w (read_request self m)))
  /\ (isinstance (decode_error r) ValueError = false ->
     read m self w = (Raised (decode_error r), self, sent w (read_request self m))).
Proof.
  intros Hr Hb. rewrite read_sub_path_correct.
  rewrite (get_json_or_False_responded _ _ _ r Hr), Hb.
  split; intros ->; reflexivity.
Qed.

Lemma read_malformed_body_witness :
  read Get_timelapse new_client (fresh (scripted [reply 200 None])) =
    (Returned (VBool false), new_client,
     sent (fresh (scripted [reply 200 None])) (read_request new_client Get_timelapse))
  /\ read Get_timelapse new_client (fresh (scripted script_too_deep)) =
    (Raised too_deep, new_client,
     sent (fresh (scripted script_too_deep)) (read_request new_client Get_timelapse)).
Proof.
  split.
  - apply (read_malformed_body Get_timelapse new_client (fresh (scripted [reply 200 None]))
             (mkResponse 200 None)); reflexivity.
  - apply (read_malformed_body Get_timelapse new_client (fresh (scripted script_too_deep))
             (mkResponseWith 200 None too_deep)); reflexivity.
Defined.

(** C3 as stated fails: the body of the response does not parse, being
    nested deeper than the parser recurses, and the read method raises
    the [RecursionError] of the parser instead of returning [False]. *)
Lemma read_malformed_body_counterexample :
  let w := fresh (scripted script_too_deep) in
  server w 0 = Responded (mkResponseWith 200 None too_deep)
  /\ body (mkResponseWith 200 None too_deep) = None
  /\ isinstance too_deep ValueError = false
  /\ fst (fst (get_timelapse new_client w)) = Raised too_deep
  /\ fst (fst (get_timelapse new_client w)) <> Returned (VBool false).
Proof. vm_compute. repeat split. discriminate. Qed.

(** ** The handshake *)

Lemma json_getitem_field response name v self w :
  field response name = Some v ->
  (let! payload := json response in getitem payload name) self w = (Returned v, self, w).
Proof.
  unfold field, json, bind. destruct (body response) as [[| | | | | |entries]|]; try discriminate.
  cbn. intros ->. reflexivity.
Qed.

Lemma server_sent w rq : server (sent w rq) = server w.
Proof. reflexivity. Qed.

Lemma length_log_asleep secs w : length (log (asleep secs w)) = length (log w).
Proof. reflexivity. Qed.

Section PollLoop.
Variables (app_token : string) (timeout : Z).

Lemma poll_while_202_exit fuel response self w :
  status_code response <> 202 ->
  poll_while_202 fuel (VStr app_token) timeout response self w =
    (Returned (VBool false), self, w).
Proof.
  intros Hne. apply Z.eqb_neq in Hne.
  destruct fuel; cbn [poll_while_202]; now rewrite Hne.
Qed.

Lemma poll_while_202_starved response self w :
  status_code response = 202 ->
  poll_while_202 0 (VStr app_token) timeout response self w = (OutOfFuel, self, w).
Proof. intros H. cbn [poll_while_202]. now rewrite H. Qed.

Lemma poll_while_202_round fuel response self w r :
  status_code response = 202 ->
  server w (length (log w)) = Responded r ->
  poll_while_202 (S fuel) (VStr app_token) timeout response self w =
    if status_code r =? 200 then
      (let! payload := json r in
       let! key := getitem payload "api_key" in
       _set_api_key key ;;
       set_self (with_connected true) ;;
       ret (VBool true)) self (polled app_token timeout self w)
    else if status_code r =? 404 then
      (Raised (mkExn Exception "User denied access"), self, polled app_token timeout self w)
    else
      poll_while_202 fuel (VStr app_token) timeout r self (polled app_token timeout self w).
Proof.
  intros H202 Hr. cbn [poll_while_202]. rewrite H202.
  change (202 =? 202) with true. cbv iota.
  unfold bind at 1. unfold get_self at 1. unfold bind at 1. unfold str_add at 1, ret at 1.
  unfold bind at 1. unfold requests_get at 1.
  fold (poll_request self app_token timeout).
  rewrite (http_responded _ _ _ _ Hr).
  unfold bind at 1. unfold time_sleep at 1. fold (polled app_token timeout self w).
  destruct (status_code r =? 200); [reflexivity|].
  destruct (status_code r =? 404); reflexivity.
Qed.

Lemma poll_while_202_pending fuel response self w r :
  status_code response = 202 ->
  server w (length (log w)) = Responded r ->
  status_code r = 202 ->
  poll_while_202 (S fuel) (VStr app_token) timeout response self w =
    poll_while_202 fuel (VStr app_token) timeout r self (polled app_token timeout self w).
Proof.
  intros H202 Hr Hs. rewrite (poll_while_202_round _ _ _ _ r H202 Hr).
  now rewrite Hs.
Qed.

Lemma poll_while_202_approved fuel response self w r key :
  status_code response = 202 ->
  server w (length (log w)) = Responded r ->
  status_code r = 200 ->
  field r "api_key" = Some key ->
  poll_while_202 (S fuel) (VStr app_token) timeout response self w =
    (Returned (VBool true), approved key self, polled app_token timeout self w).
Proof.
  intros H202 Hr Hs Hk. rewrite (poll_while_202_round _ _ _ _ r H202 Hr).
  rewrite Hs. change (200 =? 200) with true. cbv iota.
  pose proof (json_getitem_field r "api_key" key self (polled app_token timeout self w) Hk) as E.
  unfold bind in E |- *.
  destruct (json r self (polled app_token timeout self w)) as [[[payload | e |] s1] w1]; try discriminate.
  rewrite E. reflexivity.
Qed.

Lemma poll_while_202_denied fuel response self w r :
  status_code response = 202 ->
  server w (length (log w)) = Responded r ->
  status_code r = 404 ->
  poll_while_202 (S fuel) (VStr app_token) timeout response self w =
    (Raised (mkExn Exception "User denied access"), self, polled app_token timeout self w).
Proof.
  intros H202 Hr Hs. rewrite (poll_while_202_round _ _ _ _ r H202 Hr).
  now rewrite Hs.
Qed.
End PollLoop.

Lemma length_log_polled app_token timeout self w :
  length (log (polled app_token timeout self w)) = S (length (log w)).
Proof. unfold polled. rewrite length_log_asleep. apply length_log_sent. Qed.

Section Handshake.
Variables (fuel : nat) (app_name user_name : Value) (timeout : Z).
Variables (self : OctoPrint) (w : World).

Lemma length_log_first_polled app_token :
  length (log (first_polled app_name user_name timeout self w app_token)) =
    S (S (S (length (log w)))).
Proof. unfold first_polled. now rewrite !length_log_sent. Qed.

(** Probe 204, request 201 with a string token, and an answer to the
    first poll: the method is at the head of its loop. *)
Lemma get_api_key_polling r1 r2 r3 app_token :
  server w (length (log w)) = Responded r1 ->
  status_code r1 = 204 ->
  server w (S (length (log w))) = Responded r2 ->
  status_code r2 = 201 ->
  field r2 "app_token" = Some (VStr app_token) ->
  server w (S (S (length (log w)))) = Responded r3 ->
  get_api_key fuel app_name user_name timeout self w =
    poll_while_202 fuel (VStr app_token) timeout r3 self (first_polled app_name user_name timeout self w app_token).
Proof.
  intros H1 S1 H2 S2 Htok H3.
  unfold get_api_key.
  unfold bind at 1. unfold get_self at 1.
  unfold bind at 1. unfold try_except, requests_get at 1.
  fold (probe_request self timeout).
  rewrite (http_responded _ _ _ _ H1). rewrite S1.
  change (204 =? 204) with true. cbv iota.
  unfold bind at 1. unfold get_self at 1.
  unfold bind at 1. unfold requests_post at 1.
  fold (token_request self app_name user_name timeout).
  rewrite (http_responded _ _ _ r2)
    by (rewrite server_sent, length_log_sent; exact H2).
  rewrite S2. change (201 =? 201) with true. cbv iota.
  pose proof (json_getitem_field r2 "app_token" _ self
                (sent (sent w (probe_request self timeout))
                   (token_request self app_name user_name timeout)) Htok) as E.
  unfold bind in E. unfold bind at 1.
  destruct (json r2 self _) as [[[payload | e |] s1] w1]; try discriminate.
  unfold bind at 1. rewrite E.
  unfold bind at 1. unfold get_self at 1.
  unfold bind at 1. unfold str_add at 1, ret at 1.
  unfold bind at 1. unfold requests_get at 1.
  fold (poll_request self app_token timeout).
  rewrite (http_responded _ _ _ r3)
    by (rewrite !server_sent, !length_log_sent; exact H3).
  reflexivity.
Qed.

(** C8: probe 204, request 201, and a first poll that is answered 200 at
    once: the loop is never entered, the method returns [False] and the
    object is as it was ([api_key] and [connected] included), whatever
    the body of the 200 response holds. *)
Theorem get_api_key_immediate_approval r1 r2 r3 app_token :
  server w (length (log w)) = Responded r1 ->
  status_code r1 = 204 ->
  server w (S (length (log w))) = Responded r2 ->
  status_code r2 = 201 ->
  field r2 "app_token" = Some (VStr app_token) ->
  server w (S (S (length (log w)))) = Responded r3 ->
  status_code r3 = 200 ->
  get_api_key fuel app_name user_name timeout self w =
    (Returned (VBool false), self, first_polled app_name user_name timeout self w app_token).
Proof.
  intros H1 S1 H2 S2 Htok H3 S3.
  rewrite (get_api_key_polling r1 r2 r3 app_token H1 S1 H2 S2 Htok H3).
  apply poll_while_202_exit. rewrite S3. discriminate.
Qed.

(** The same for a first poll that is answered 404: no exception. *)
Lemma get_api_key_immediate_denial r1 r2 r3 app_token :
  server w (length (log w)) = Responded r1 ->
  status_code r1 = 204 ->
  server w (S (length (log w))) = Responded r2 ->
  status_code r2 = 201 ->
  field r2 "app_token" = Some (VStr app_token) ->
  server w (S (S (length (log w)))) = Responded r3 ->
  status_code r3 = 404 ->
  get_api_key fuel app_name user_name timeout self w =
    (Returned (VBool false), self, first_polled app_name user_name timeout self w app_token).
Proof.
  intros H1 S1 H2 S2 Htok H3 S3.
  rewrite (get_api_key_polling r1 r2 r3 app_token H1 S1 H2 S2 Htok H3).
  apply poll_while_202_exit. rewrite S3. discriminate.
Qed.

(** C1, with the count the code gives: probe 204, request 201, polls
    202, 202, 200.  The method returns [True], the object holds the
    [api_key] of the last body, set as [_set_api_key] sets it, and is
    connected; five requests were sent, the probe, the token request
    and three polls, and the loop slept twice. *)
Theorem get_api_key_202_202_200 r1 r2 r3 r4 r5 app_token key :
  server w (length (log w)) = Responded r1 ->
  status_code r1 = 204 ->
  server w (1 + length (log w)) = Responded r2 ->
  status_code r2 = 201 ->
  field r2 "app_token" = Some (VStr app_token) ->
  server w (2 + length (log w)) = Responded r3 ->
  status_code r3 = 202 ->
  server w (3 + length (log w)) = Responded r4 ->
  status_code r4 = 202 ->
  server w (4 + length (log w)) = Responded r5 ->
  status_code r5 = 200 ->
  field r5 "api_key" = Some key ->
  (2 <= fuel)%nat ->
  get_api_key fuel app_name user_name timeout self w =
    (Returned (VBool true),
     {| base_url := base_url self;
        headers := {[ "X-Api-Key" := key ]};
        api_key := key;
        connected := true |},
     {| server := server w;
        log := log w ++ [probe_request self timeout;
                         token_request self app_name user_name timeout;
                         poll_request self app_token timeout;
                         poll_request self app_token timeout;
                         poll_request self app_token timeout];
        slept := slept w + 2;
        stdout := stdout w |}).
Proof.
  intros H1 S1 H2 S2 Htok H3 S3 H4 S4 H5 S5 Hkey Hfuel.
  rewrite (get_api_key_polling r1 r2 r3 app_token H1 S1 H2 S2 Htok H3).
  destruct fuel as [|[|fuel']]; [lia | lia |].
  rewrite (poll_while_202_pending _ _ _ _ _ _ r4 S3)
    by (rewrite ?length_log_first_polled; assumption).
  rewrite (poll_while_202_approved _ _ _ _ _ _ r5 key S4)
    by (rewrite ?length_log_polled, ?length_log_first_polled; assumption).
  unfold approved, polled, first_polled, asleep, sent; cbn [server log slept stdout].
  rewrite <- !app_assoc. cbn [app].
  rewrite <- Nat.add_assoc. reflexivity.
Qed.
End Handshake.

(** A 404 that comes after the first poll and [k] further polls were all
    answered 202 raises, and leaves the object as it was. *)
Lemma poll_while_202_denied_after app_token timeout k :
  forall fuel response self w r404,
    status_code response = 202 ->
    (forall i, (i < k)%nat ->
       exists r, server w (length (log w) + i) = Responded r /\ status_code r = 202) ->
    server w (length (log w) + k) = Responded r404 ->
    status_code r404 = 404 ->
    (k < fuel)%nat ->
    exists w',
      poll_while_202 fuel (VStr app_token) timeout response self w =
        (Raised (mkExn Exception "User denied access"), self, w').
Proof.
  induction k as [|k IH]; intros fuel response self w r404 H202 Hpending H404 S404 Hfuel;
    (destruct fuel as [|fuel]; [lia|]).
  - rewrite Nat.add_0_r in H404.
    rewrite (poll_while_202_denied _ _ _ _ _ _ r404 H202 H404 S404). eauto.
  - destruct (Hpending 0%nat) as (r & Hr & Sr); [lia|].
    rewrite Nat.add_0_r in Hr.
    rewrite (poll_while_202_pending _ _ _ _ _ _ r H202 Hr Sr).
    apply (IH fuel r self _ r404 Sr); [| | exact S404 | lia].
    + intros i Hi. rewrite length_log_polled.
      destruct (Hpending (S i)) as (r' & Hr' & Sr'); [lia|].
      exists r'. split; [|exact Sr'].
      replace (S (length (log w)) + i)%nat with (length (log w) + S i)%nat by lia.
      exact Hr'.
    + rewrite length_log_polled.
      replace (S (length (log w)) + k)%nat with (length (log w) + S k)%nat by lia.
      exact H404.
Qed.

(** ** What a call can do to the object and to the log *)

Lemma logs_nothing P w : logs P w w.
Proof. exists []. split; [now rewrite app_nil_r | constructor]. Qed.

Lemma logs_sent (P : Request -> Prop) w rq : P rq -> logs P w (sent w rq).
Proof. intros H. exists [rq]. split; [reflexivity | now repeat constructor]. Qed.

Lemma logs_trans P w1 w2 w3 : logs P w1 w2 -> logs P w2 w3 -> logs P w1 w3.
Proof.
  intros (n1 & E1 & F1) (n2 & E2 & F2). exists (n1 ++ n2)%list. split.
  - now rewrite E2, E1, app_assoc.
  - now apply Forall_app.
Qed.

Lemma logs_asleep P secs w w' : logs P w w' -> logs P w (asleep secs w').
Proof. intros H. exact H. Qed.

Lemma logs_printed P line w w' : logs P w w' -> logs P w (printed line w').
Proof. intros H. exact H. Qed.

Lemma logs_impl (P Q : Request -> Prop) w w' :
  (forall rq, P rq -> Q rq) -> logs P w w' -> logs Q w w'.
Proof.
  intros HPQ (new & E & F). exists new. split; [exact E|].
  eapply Forall_impl; eauto.
Qed.

Ltac run_method H :=
  unfold bind, try_except, get_self, set_self, str_add, requests_get, requests_post,
    http, time_sleep, print, json, getitem, raise, raise_exn, ret, out_of_fuel in H.

Section HandshakeEffect.
Variables (app_name user_name : Value) (timeout : Z).

Lemma handshake_unchanged self w w' :
  server w' = server w ->
  logs (handshake_request self app_name user_name timeout) w w' ->
  handshake_effect app_name user_name timeout self w self w'.
Proof. intros Hs Hl. split; [exact Hs|]. split; [now left | exact Hl]. Qed.

Lemma poll_logged self w app_token :
  logs (handshake_request self app_name user_name timeout) w
    (sent w (poll_request self app_token timeout)).
Proof. apply logs_sent. right; right. now exists app_token. Qed.

Lemma poll_while_202_effect fuel app_token :
  forall response self w result self' w',
    poll_while_202 fuel app_token timeout response self w = (result, self', w') ->
    handshake_effect app_name user_name timeout self w self' w'.
Proof.
  induction fuel as [|fuel IH]; intros response self w result self' w' Hrun;
    cbn [poll_while_202] in Hrun.
  - destruct (status_code response =? 202); inversion Hrun; subst;
      (apply handshake_unchanged; [reflexivity | apply logs_nothing]).
  - destruct (status_code response =? 202);
      [|inversion Hrun; subst; apply handshake_unchanged; [reflexivity | apply logs_nothing]].
    unfold _set_api_key in Hrun. run_method Hrun.
    destruct app_token as [| | | |tok| |];
      try (inversion Hrun; subst; apply handshake_unchanged; [reflexivity | apply logs_nothing]).
    fold (poll_request self tok timeout) in Hrun.
    destruct (server w (length (log w))) as [r|e] eqn:Hr;
      [|inversion Hrun; subst; apply handshake_unchanged; [reflexivity | apply poll_logged]].
    destruct (status_code r =? 200) eqn:H200.
    + destruct (body r) as [payload|] eqn:Hbody;
        [|inversion Hrun; subst; apply handshake_unchanged; [reflexivity | apply poll_logged]].
      destruct payload as [| | | | | |entries];
        try (inversion Hrun; subst; apply handshake_unchanged; [reflexivity | apply poll_logged]).
      destruct (dict_get entries "api_key") as [key|] eqn:Hkey;
        [|inversion Hrun; subst; apply handshake_unchanged; [reflexivity | apply poll_logged]].
      inversion Hrun; subst. split; [reflexivity|]. split; [|apply poll_logged].
      right. exists (length (log w)), r, key.
      split; [exact Hr|]. split; [now apply Z.eqb_eq|]. split; [|reflexivity].
      unfold field. now rewrite Hbody.
    + destruct (status_code r =? 404);
        [inversion Hrun; subst; apply handshake_unchanged; [reflexivity | apply poll_logged]|].
      apply IH in Hrun. destruct Hrun as (Hs & Ho & Hl).
      split; [exact Hs|]. split; [exact Ho|].
      eapply logs_trans; [apply poll_logged | exact Hl].
Qed.

Lemma get_api_key_effect fuel self w result self' w' :
  get_api_key fuel app_name user_name timeout self w = (result, self', w') ->
  handshake_effect app_name user_name timeout self w self' w'.
Proof.
  intros Hrun. unfold get_api_key in Hrun.
  assert (Hprobe : logs (handshake_request self app_name user_name timeout) w
                     (sent w (probe_request self timeout)))
    by (apply logs_sent; now left).
  assert (Htoken : logs (handshake_request self app_name user_name timeout) w
                     (sent (sent w (probe_request self timeout))
                        (token_request self app_name user_name timeout))).
  { eapply logs_trans; [exact Hprobe|]. apply logs_sent. right; now left. }
  unfold bind at 1, get_self at 1, bind at 1, try_except, requests_get at 1, http at 1
    in Hrun.
  fold (probe_request self timeout) in Hrun.
  destruct (server w (length (log w))) as [r1|e1].
  2:{ cbn [first_handler] in Hrun.
      destruct (isinstance e1 ReadTimeout);
        [inversion Hrun; subst; now apply handshake_unchanged|].
      destruct (isinstance e1 ConnectionError);
        inversion Hrun; subst; now apply handshake_unchanged. }
  destruct (status_code r1 =? 204);
    [|inversion Hrun; subst; now apply handshake_unchanged].
  unfold bind at 1, get_self at 1, bind at 1, requests_post at 1, http at 1 in Hrun.
  fold (token_request self app_name user_name timeout) in Hrun.
  destruct (server _ _) as [r2|e2]; [|inversion Hrun; subst; now apply handshake_unchanged].
  destruct (status_code r2 =? 201);
    [|inversion Hrun; subst; now apply handshake_unchanged].
  unfold bind at 1, json at 1 in Hrun.
  destruct (body r2) as [payload|];
    [|inversion Hrun; subst; now apply handshake_unchanged].
  unfold ret at 1, bind at 1, getitem at 1 in Hrun.
  assert (Hpoll : forall app_token result self' w',
    (let! self0 := get_self in
     let! url := str_add (base_url self0 +:+ "plugin/appkeys/request/") app_token in
     let! response := requests_get url (headers self0) timeout in
     poll_while_202 fuel app_token timeout response) self
       (sent (sent w (probe_request self timeout))
          (token_request self app_name user_name timeout)) = (result, self', w') ->
    handshake_effect app_name user_name timeout self w self' w').
  { clear Hrun result self' w'. intros app_token result self' w' Hrun.
    unfold bind at 1, get_self at 1, bind at 1, str_add at 1 in Hrun.
    destruct app_token as [| | | |tok| |];
      try (inversion Hrun; subst; now apply handshake_unchanged).
    unfold ret at 1, bind at 1, requests_get at 1, http at 1 in Hrun.
    fold (poll_request self tok timeout) in Hrun.
    assert (Hfirst : logs (handshake_request self app_name user_name timeout) w
              (sent (sent (sent w (probe_request self timeout))
                       (token_request self app_name user_name timeout))
                 (poll_request self tok timeout))).
    { eapply logs_trans; [exact Htoken | apply poll_logged]. }
    destruct (server _ _) as [r3|e3]; [|inversion Hrun; subst; now apply handshake_unchanged].
    apply poll_while_202_effect in Hrun. destruct Hrun as (Hs & Ho & Hl).
    split; [exact Hs|]. split; [exact Ho|].
    eapply logs_trans; [exact Hfirst | exact Hl]. }
  destruct payload as [| | | | | |entries];
    try (unfold raise at 1 in Hrun; inversion Hrun; subst; now apply handshake_unchanged).
  destruct (dict_get entries "app_token") as [app_token|];
    [|unfold raise at 1 in Hrun; inversion Hrun; subst; now apply handshake_unchanged].
  unfold ret at 1 in Hrun. now apply Hpoll in Hrun.
Qed.
End HandshakeEffect.

Lemma as_obj_run m self w result self' w' :
  as_obj m self w = (result, self', w') ->
  exists result0, m self w = (result0, self', w').
Proof.
  unfold as_obj, bind, ret. destruct (m self w) as [[[v|e|] s1] w1];
    intros H; inversion H; subst; eauto.
Qed.

Lemma deregister_effect self w result self' w' :
  deregister self w = (result, self', w') ->
  server w' = server w
  /\ (self' = self \/ self' = with_connected false self)
  /\ logs (fun rq => rq = revoke_request self) w w'.
Proof.
  intros Hrun. destruct (server w (length (log w))) as [r|e] eqn:Hs.
  - rewrite (deregister_responded self w r Hs) in Hrun.
    destruct (status_code r =? 204); inversion Hrun; subst;
      (split; [reflexivity|]); (split; [auto | now apply logs_sent]).
  - rewrite (deregister_failed self w e Hs) in Hrun.
    destruct (isinstance e ConnectionError); inversion Hrun; subst;
      (split; [reflexivity|]); (split; [auto|]).
    + apply logs_printed. now apply logs_sent.
    + now apply logs_sent.
Qed.

Lemma get_json_or_False_effect sub self w result self' w' :
  get_json_or_False sub self w = (result, self', w') ->
  server w' = server w /\ self' = self
  /\ w' = sent w (mkRequest GET (base_url self +:+ sub) (headers self) None 9).
Proof.
  unfold get_json_or_False. intros Hrun. run_method Hrun.
  destruct (server w (length (log w))) as [r|e].
  - destruct (body r); [inversion Hrun; subst; auto|].
    cbn [first_handler] in Hrun.
    destruct (isinstance (decode_error r) ValueError); inversion Hrun; subst; auto.
  - cbn [first_handler] in Hrun.
    destruct (isinstance e ValueError); inversion Hrun; subst; auto.
Qed.

Lemma post_job_command_effect action self w result self' w' :
  post_job_command action self w = (result, self', w') ->
  server w' = server w /\ self' = self
  /\ logs (fun rq => rq = job_request self action) w w'.
Proof.
  unfold post_job_command. intros Hrun. run_method Hrun.
  fold (job_request self action) in Hrun.
  destruct (connected self).
  - destruct (server w (length (log w))) as [r|e].
    + inversion Hrun; subst. repeat split. now apply logs_sent.
    + cbn [first_handler] in Hrun.
      destruct (isinstance e ConnectionError); inversion Hrun; subst;
        repeat split.
      * apply logs_printed. now apply logs_sent.
      * now apply logs_sent.
  - inversion Hrun; subst. repeat split. apply logs_nothing.
Qed.

Lemma set_printer_settings_effect self w result self' w' :
  set_printer_settings self w = (result, self', w') ->
  server w' = server w /\ self' = self /\ w' = sent w (settings_request self).
Proof.
  unfold set_printer_settings. intros Hrun. run_method Hrun.
  fold (settings_request self) in Hrun.
  destruct (server w (length (log w))); inversion Hrun; subst; auto.
Qed.

Lemma call_effect c self w result self' w' :
  call c self w = (result, self', w') ->
  server w' = server w
  /\ object_after (server w) c self self'
  /\ logs (request_of c self) w w'.
Proof.
  destruct c as [key | fuel app_name user_name timeout | | m | | |]; cbn [call];
    intros Hrun.
  - apply as_obj_run in Hrun as [result0 Hrun].
    rewrite _set_api_key_spec in Hrun. inversion Hrun; subst.
    repeat split. apply logs_nothing.
  - apply as_obj_run in Hrun as [result0 Hrun].
    apply get_api_key_effect in Hrun. exact Hrun.
  - apply as_obj_run in Hrun as [result0 Hrun].
    apply deregister_effect in Hrun. exact Hrun.
  - apply as_obj_run in Hrun as [result0 Hrun].
    rewrite read_sub_path_correct in Hrun.
    apply get_json_or_False_effect in Hrun as (Hs & -> & ->).
    repeat split. now apply logs_sent.
  - apply post_job_command_effect in Hrun. exact Hrun.
  - apply post_job_command_effect in Hrun. exact Hrun.
  - apply set_printer_settings_effect in Hrun as (Hs & -> & ->).
    repeat split. now apply logs_sent.
Qed.

Lemma object_after_base_url srv c self self' :
  object_after srv c self self' -> base_url self' = base_url self.
Proof.
  destruct c; cbn [object_after]; intros H; subst; try reflexivity.
  - destruct H as [-> | (n & r & key & _ & _ & _ & ->)]; reflexivity.
  - destruct H as [-> | ->]; reflexivity.
Qed.

Lemma after_calls_cons c cs self w :
  after_calls (c :: cs) self w =
    after_calls cs (snd (fst (call c self w))) (snd (call c self w)).
Proof. cbn [after_calls]. now destruct (call c self w) as [[result self'] w']. Qed.

Lemma after_calls_server cs : forall self w,
  server (snd (after_calls cs self w)) = server w.
Proof.
  induction cs as [|c cs IH]; intros self w; [reflexivity|].
  rewrite after_calls_cons, IH.
  destruct (call c self w) as [[result self'] w'] eqn:Hrun.
  now apply call_effect in Hrun as (Hs & _ & _).
Qed.

Lemma after_calls_base_url cs : forall self w,
  base_url (fst (after_calls cs self w)) = base_url self.
Proof.
  induction cs as [|c cs IH]; intros self w; [reflexivity|].
  rewrite after_calls_cons, IH.
  destruct (call c self w) as [[result self'] w'] eqn:Hrun.
  apply call_effect in Hrun as (_ & Ho & _).
  now apply object_after_base_url in Ho.
Qed.

(** ** Connected implies a key *)

Lemma scripted_sends_no_null_key outcomes :
  forallb null_key_free outcomes = true -> sends_no_null_key (scripted outcomes).
Proof.
  unfold sends_no_null_key, scripted.
  induction outcomes as [|o outcomes IH]; intros Hall n.
  - now destruct n.
  - cbn [forallb] in Hall. apply andb_prop in Hall as [Ho Hall].
    destruct n as [|n]; [exact Ho | now apply IH].
Qed.

Lemma object_after_invariant srv c self self' :
  passes_a_key c = true ->
  sends_no_null_key srv ->
  object_after srv c self self' ->
  credential_invariant self ->
  credential_invariant self'.
Proof.
  unfold credential_invariant.
  intros Hkey Hsrv Hobj Hinv.
  destruct c; cbn [object_after passes_a_key] in *; subst; try assumption.
  - intros _. exact Hkey.
  - destruct Hobj as [-> | (n & r & key & Hr & _ & Hfield & ->)]; [assumption|].
    intros _. cbn [approved api_key].
    specialize (Hsrv n). rewrite Hr in Hsrv. cbn [null_key_free] in Hsrv.
    rewrite Hfield in Hsrv. now destruct key.
  - destruct Hobj as [-> | ->]; [assumption | discriminate].
Qed.

Lemma after_calls_invariant cs : forall self w,
  Forall (fun c => passes_a_key c = true) cs ->
  sends_no_null_key (server w) ->
  credential_invariant self ->
  credential_invariant (fst (after_calls cs self w)).
Proof.
  induction cs as [|c cs IH]; intros self w Hcs Hsrv Hinv; [exact Hinv|].
  rewrite after_calls_cons.
  apply Forall_cons in Hcs as [Hc Hcs].
  destruct (call c self w) as [[result self'] w'] eqn:Hrun.
  apply call_effect in Hrun as (Hs & Ho & _). cbn [fst snd].
  apply IH; [exact Hcs | now rewrite Hs |].
  now apply (object_after_invariant (server w) c self).
Qed.

(** C7, as the code has it: in every state that a series of calls of
    any methods of the class (those of the claim among them) leaves a
    newly constructed object in, [connected] implies that [api_key] is
    not [None], as long as no call of [_set_api_key] passes [None] and
    the server sends no response with a null ["api_key"].  The states a
    call that runs out of fuel is stopped in are covered too. *)
Theorem connected_implies_api_key host port path srv cs :
  Forall (fun c => passes_a_key c = true) cs ->
  sends_no_null_key srv ->
  credential_invariant (fst (after_calls cs (__init__ host port path) (fresh srv))).
Proof.
  intros Hcs Hsrv. apply after_calls_invariant; [exact Hcs | exact Hsrv |].
  intros H. discriminate H.
Qed.

(** ** Request URLs *)

Lemma append_assoc (a b c : string) : (a +:+ b) +:+ c = a +:+ (b +:+ c).
Proof.
  induction a as [|ch a IH]; [reflexivity|].
  change (String ch ((a +:+ b) +:+ c) = String ch (a +:+ (b +:+ c))). now f_equal.
Qed.

Lemma request_of_url c self rq :
  request_of c self rq -> url_under (base_url self) c rq.
Proof.
  unfold url_under.
  destruct c; cbn [request_of sub_path]; intros H; try contradiction;
    try (subst; eexists; split; reflexivity).
  destruct H as [-> | [-> | [app_token ->]]].
  - eexists; split; [left; reflexivity | reflexivity].
  - eexists; split; [right; left; reflexivity | reflexivity].
  - exists ("plugin/appkeys/request/" +:+ app_token). split.
    + right; right. now exists app_token.
    + cbn [poll_request rq_url]. apply append_assoc.
Qed.

Lemma call_urls c self w :
  logs (url_under (base_url self) c) w (snd (call c self w)).
Proof.
  destruct (call c self w) as [[result self'] w'] eqn:Hrun.
  apply call_effect in Hrun as (_ & _ & Hl). cbn [snd].
  eapply logs_impl; [|exact Hl]. intros rq. apply request_of_url.
Qed.


(** ** Handshakes against scripted servers *)

Lemma get_api_key_202_202_200_witness :
  get_api_key 2 (VStr "test") VNone 9 new_client (fresh (scripted script_202_202_200)) =
    (Returned (VBool true), connected_client,
     {| server := scripted script_202_202_200;
        log := [probe_h; request_h; poll_h; poll_h; poll_h];
        slept := 2;
        stdout := [] |}).
Proof.
  apply (get_api_key_202_202_200 2 (VStr "test") VNone 9 new_client
           (fresh (scripted script_202_202_200))
           (mkResponse 204 None)
           (mkResponse 201 (Some (VDict [("app_token", VStr "tok")])))
           (mkResponse 202 None) (mkResponse 202 None)
           (mkResponse 200 (Some (VDict [("api_key", VStr "k")])))
           "tok" (VStr "k"));
    solve [reflexivity | lia].
Defined.

(** C1 as stated fails: with the statuses 204, 201, 202, 202, 200 the method
    succeeds and stores the key, and the log holds five requests (the probe,
    the token request and three polls), not four. *)
Lemma get_api_key_202_202_200_counterexample :
  let '(result, self', w') :=
    get_api_key 2 (VStr "test") VNone 9 new_client
      (fresh (scripted script_202_202_200)) in
  result = Returned (VBool true)
  /\ api_key self' = VStr "k"
  /\ log w' = [probe_h; request_h; poll_h; poll_h; poll_h]
  /\ log w' <> [probe_h; request_h; poll_h; poll_h]
  /\ length (log w') = 5%nat.
Proof.
  vm_compute. repeat split. intros H. discriminate H.
Qed.

Lemma get_api_key_immediate_approval_witness :
  get_api_key 2 (VStr "test") VNone 9 new_client (fresh (scripted script_immediate_200)) =
    (Returned (VBool false), new_client,
     {| server := scripted script_immediate_200;
        log := [probe_h; request_h; poll_h];
        slept := 0;
        stdout := [] |}).
Proof.
  apply (get_api_key_immediate_approval 2 (VStr "test") VNone 9 new_client
           (fresh (scripted script_immediate_200))
           (mkResponse 204 None)
           (mkResponse 201 (Some (VDict [("app_token", VStr "tok")])))
           (mkResponse 200 (Some (VDict [("api_key", VStr "k")])))
           "tok");
    reflexivity.
Defined.

(** C2 at the input on which the code parts from it: the first poll is
    answered 404.  The loop is never entered, so the method returns
    [False] where a 404 inside the loop raises [Exception("User denied
    access")]; the object is as it was. *)
Theorem get_api_key_first_poll_404 fuel :
  get_api_key fuel (VStr "test") VNone 9 new_client (fresh (scripted script_immediate_404)) =
    (Returned (VBool false), new_client,
     {| server := scripted script_immediate_404;
        log := [probe_h; request_h; poll_h];
        slept := 0;
        stdout := [] |}).
Proof.
  apply (get_api_key_immediate_denial fuel (VStr "test") VNone 9 new_client
           (fresh (scripted script_immediate_404))
           (mkResponse 204 None)
           (mkResponse 201 (Some (VDict [("app_token", VStr "tok")])))
           (mkResponse 404 None)
           "tok");
    reflexivity.
Qed.

(** The sibling path: a 404 that follows a 202 raises. *)
Lemma get_api_key_202_404 fuel :
  get_api_key (S fuel) (VStr "test") VNone 9 new_client (fresh (scripted script_202_404)) =
    (Raised (mkExn Exception "User denied access"), new_client,
     {| server := scripted script_202_404;
        log := [probe_h; request_h; poll_h; poll_h];
        slept := 1;
        stdout := [] |}).
Proof.
  rewrite (get_api_key_polling (S fuel) (VStr "test") VNone 9 new_client
             (fresh (scripted script_202_404))
             (mkResponse 204 None)
             (mkResponse 201 (Some (VDict [("app_token", VStr "tok")])))
             (mkResponse 202 None) "tok") by reflexivity.
  rewrite (poll_while_202_denied "tok" 9 fuel _ _ _ (mkResponse 404 None))
    by reflexivity.
  reflexivity.
Qed.

Lemma connected_implies_api_key_witness :
  credential_invariant
    (fst (after_calls
            [Call_get_api_key 2 (VStr "test") VNone 9; Call_pause_print;
             Call_set_api_key (VStr "k2"); Call_deregister]
            (__init__ "h" 81 "/x/") (fresh (scripted script_202_202_200)))).
Proof.
  apply (connected_implies_api_key "h" 81 "/x/" (scripted script_202_202_200)
           [Call_get_api_key 2 (VStr "test") VNone 9; Call_pause_print;
            Call_set_api_key (VStr "k2"); Call_deregister]).
  - repeat constructor.
  - apply scripted_sends_no_null_key. reflexivity.
Defined.

(** C7 as stated fails: a handshake that the server approves with a null
    ["api_key"] leaves the object connected and without a key, and so does
    [_set_api_key(None)] on a connected object. *)
Lemma connected_without_api_key_counterexample :
  let self1 :=
    fst (after_calls [Call_get_api_key 1 (VStr "test") VNone 9]
           (__init__ "h" 81 "/x/") (fresh (scripted script_null_key))) in
  let self2 :=
    fst (after_calls [Call_get_api_key 2 (VStr "test") VNone 9; Call_set_api_key VNone]
           (__init__ "h" 81 "/x/") (fresh (scripted script_202_202_200))) in
  (connected self1 = true /\ api_key self1 = VNone)
  /\ (connected self2 = true /\ api_key self2 = VNone).
Proof. vm_compute. repeat split. Qed.

(** * Further properties *)

Ltac unfold_method :=
  unfold bind, try_except, get_self, set_self, str_add, requests_get, requests_post,
    http, time_sleep, print, json, getitem, raise, raise_exn, ret, out_of_fuel.

(** ** The handshake, stage by stage *)

Section Stages.
Variables (fuel : nat) (app_name user_name : Value) (timeout : Z).
Variables (self : OctoPrint) (w : World).

Lemma get_api_key_probe_failed e :
  server w (length (log w)) = Failed e ->
  get_api_key fuel app_name user_name timeout self w =
    (Raised (probe_failure e), self, sent w (probe_request self timeout)).
Proof.
  intros H1. unfold get_api_key. unfold_method.
  fold (probe_request self timeout). rewrite H1. cbv beta iota.
  unfold first_handler, probe_failure.
  destruct (isinstance e ReadTimeout); [reflexivity|].
  destruct (isinstance e ConnectionError); reflexivity.
Qed.

(** X1: a probe that is answered with any status but 204 ends the
    handshake at once: the method raises [Exception("Instance does not
    seem to support Application Keys Plugin")], the probe is the only
    request sent, and the object is as it was. *)
Theorem get_api_key_unsupported r1 :
  server w (length (log w)) = Responded r1 ->
  status_code r1 <> 204 ->
  get_api_key fuel app_name user_name timeout self w =
    (Raised (mkExn Exception "Instance does not seem to support Application Keys Plugin"),
     self, sent w (probe_request self timeout)).
Proof.
  intros H1 S1. apply Z.eqb_neq in S1. unfold get_api_key. unfold_method.
  fold (probe_request self timeout). rewrite H1. cbv beta iota. rewrite S1.
  reflexivity.
Qed.

(** X2: a probe that fails in transport is reported in the words of the
    module: a [ReadTimeout] as a new [ReadTimeout] "no response", any
    other [ConnectionError] (a [ConnectTimeout] too) as a new
    [ConnectionError] "connection refused"; every other exception passes
    as it is.  The object is as it was and the probe is in the log. *)
Theorem get_api_key_probe_transport e :
  server w (length (log w)) = Failed e ->
  exists raised,
    get_api_key fuel app_name user_name timeout self w =
      (Raised raised, self, sent w (probe_request self timeout))
    /\ (isinstance e ReadTimeout = true ->
        raised = mkExn ReadTimeout "Could not connect to server, no response")
    /\ (isinstance e ReadTimeout = false -> isinstance e ConnectionError = true ->
        raised = mkExn ConnectionError "Could not connect to server, connection refused")
    /\ (isinstance e ReadTimeout = false -> isinstance e ConnectionError = false ->
        raised = e).
Proof.
  intros H1. exists (probe_failure e). split; [now apply get_api_key_probe_failed|].
  unfold probe_failure.
  destruct (isinstance e ReadTimeout), (isinstance e ConnectionError);
    repeat split; intros; congruence.
Qed.

(** X3: a token request that is answered with any status but 201 raises
    [Exception("User not created")] after two requests; no poll is sent. *)
Theorem get_api_key_not_created r1 r2 :
  server w (length (log w)) = Responded r1 ->
  status_code r1 = 204 ->
  server w (S (length (log w))) = Responded r2 ->
  status_code r2 <> 201 ->
  get_api_key fuel app_name user_name timeout self w =
    (Raised (mkExn Exception "User not created"), self,
     token_requested app_name user_name timeout self w).
Proof.
  intros H1 S1 H2 S2. apply Z.eqb_neq in S2. unfold get_api_key. unfold_method.
  fold (probe_request self timeout). rewrite H1. cbv beta iota. rewrite S1.
  change (204 =? 204) with true. cbv beta iota.
  fold (token_request self app_name user_name timeout).
  rewrite server_sent, length_log_sent, H2. cbv beta iota. rewrite S2. reflexivity.
Qed.

(** X4: only the probe is guarded.  A token request that fails in
    transport raises the exception of the transport as it is, a
    [ConnectionError] too. *)
Theorem get_api_key_token_request_failed r1 e :
  server w (length (log w)) = Responded r1 ->
  status_code r1 = 204 ->
  server w (S (length (log w))) = Failed e ->
  get_api_key fuel app_name user_name timeout self w =
    (Raised e, self, token_requested app_name user_name timeout self w).
Proof.
  intros H1 S1 H2. unfold get_api_key. unfold_method.
  fold (probe_request self timeout). rewrite H1. cbv beta iota. rewrite S1.
  change (204 =? 204) with true. cbv beta iota.
  fold (token_request self app_name user_name timeout).
  rewrite server_sent, length_log_sent, H2. reflexivity.
Qed.

Lemma get_api_key_token_missing r1 r2 :
  server w (length (log w)) = Responded r1 ->
  status_code r1 = 204 ->
  server w (S (length (log w))) = Responded r2 ->
  status_code r2 = 201 ->
  field r2 "app_token" = None ->
  exists e,
    field_error r2 "app_token" e
    /\ get_api_key fuel app_name user_name timeout self w =
         (Raised e, self, token_requested app_name user_name timeout self w).
Proof.
  intros H1 S1 H2 S2 Hf. unfold get_api_key. unfold_method.
  fold (probe_request self timeout). rewrite H1. cbv beta iota. rewrite S1.
  change (204 =? 204) with true. cbv beta iota.
  fold (token_request self app_name user_name timeout).
  rewrite server_sent, length_log_sent, H2. cbv beta iota. rewrite S2.
  change (201 =? 201) with true. cbv beta iota.
  unfold field in Hf. unfold field_error.
  destruct (body r2) as [[| | | | | |entries]|]; cbv beta iota;
    try (eexists; split; [|reflexivity]; reflexivity).
  rewrite Hf. eexists; split; [|reflexivity]; reflexivity.
Qed.

Lemma get_api_key_token_not_str r1 r2 v :
  server w (length (log w)) = Responded r1 ->
  status_code r1 = 204 ->
  server w (S (length (log w))) = Responded r2 ->
  status_code r2 = 201 ->
  field r2 "app_token" = Some v ->
  (forall app_token, v <> VStr app_token) ->
  exists e,
    exn_class e = TypeError
    /\ get_api_key fuel app_name user_name timeout self w =
         (Raised e, self, token_requested app_name user_name timeout self w).
Proof.
  intros H1 S1 H2 S2 Hf Hv. unfold get_api_key. unfold_method.
  fold (probe_request self timeout). rewrite H1. cbv beta iota. rewrite S1.
  change (204 =? 204) with true. cbv beta iota.
  fold (token_request self app_name user_name timeout).
  rewrite server_sent, length_log_sent, H2. cbv beta iota. rewrite S2.
  change (201 =? 201) with true. cbv beta iota.
  unfold field in Hf.
  destruct (body r2) as [[| | | | | |entries]|]; try discriminate.
  cbv beta iota. rewrite Hf. cbv beta iota.
  destruct v as [| | | |app_token| |];
    try (eexists; split; [|reflexivity]; reflexivity).
  now contradiction (Hv app_token).
Qed.

(** X5: a 201 response that does not deliver a string ["app_token"]
    makes the method raise before any poll is sent: the exception of the
    parser, whatever it is, for a body that does not parse, [KeyError]
    for a [dict] without the key, [TypeError] for a body that is no
    [dict] or a token that is no string. *)
Theorem get_api_key_no_token r1 r2 :
  server w (length (log w)) = Responded r1 ->
  status_code r1 = 204 ->
  server w (S (length (log w))) = Responded r2 ->
  status_code r2 = 201 ->
  (forall app_token, field r2 "app_token" <> Some (VStr app_token)) ->
  exists e,
    get_api_key fuel app_name user_name timeout self w =
      (Raised e, self, token_requested app_name user_name timeout self w)
    /\ match field r2 "app_token" with
       | Some _ => exn_class e = TypeError
       | None => field_error r2 "app_token" e
       end.
Proof.
  intros H1 S1 H2 S2 Hno.
  destruct (field r2 "app_token") as [v|] eqn:Hf.
  - destruct (get_api_key_token_not_str r1 r2 v H1 S1 H2 S2 Hf) as (e & He & E).
    + intros app_token ->. now apply (Hno app_token).
    + exists e. now split.
  - destruct (get_api_key_token_missing r1 r2 H1 S1 H2 S2 Hf) as (e & He & E).
    exists e. now split.
Qed.
End Stages.

Lemma get_api_key_unsupported_witness :
  get_api_key 1 (VStr "test") VNone 9 new_client (fresh (scripted script_no_plugin)) =
    (Raised (mkExn Exception "Instance does not seem to support Application Keys Plugin"),
     new_client, sent (fresh (scripted script_no_plugin)) probe_h).
Proof.
  apply (get_api_key_unsupported 1 (VStr "test") VNone 9 new_client
           (fresh (scripted script_no_plugin)) (mkResponse 404 None));
    [reflexivity | discriminate].
Defined.

Lemma get_api_key_probe_transport_witness :
  exists raised,
    get_api_key 1 (VStr "test") VNone 9 new_client
      (fresh (scripted script_probe_connect_timeout)) =
      (Raised raised, new_client,
       sent (fresh (scripted script_probe_connect_timeout)) (probe_request new_client 9))
    /\ raised = mkExn ConnectionError "Could not connect to server, connection refused".
Proof.
  destruct (get_api_key_probe_transport 1 (VStr "test") VNone 9 new_client
              (fresh (scripted script_probe_connect_timeout))
              (mkExn ConnectTimeout "Connection to h timed out.") eq_refl)
    as (raised & E & _ & Hc & _).
  exists raised. split; [exact E | now apply Hc].
Defined.

Lemma get_api_key_not_created_witness :
  get_api_key 1 (VStr "test") VNone 9 new_client (fresh (scripted script_not_created)) =
    (Raised (mkExn Exception "User not created"), new_client,
     token_requested (VStr "test") VNone 9 new_client (fresh (scripted script_not_created))).
Proof.
  apply (get_api_key_not_created 1 (VStr "test") VNone 9 new_client
           (fresh (scripted script_not_created))
           (mkResponse 204 None) (mkResponse 403 None));
    solve [reflexivity | discriminate].
Defined.

Lemma get_api_key_token_request_failed_witness :
  get_api_key 1 (VStr "test") VNone 9 new_client (fresh (scripted script_request_refused)) =
    (Raised (mkExn ConnectionError "Connection refused"), new_client,
     token_requested (VStr "test") VNone 9 new_client
       (fresh (scripted script_request_refused))).
Proof.
  apply (get_api_key_token_request_failed 1 (VStr "test") VNone 9 new_client
           (fresh (scripted script_request_refused)) (mkResponse 204 None));
    reflexivity.
Defined.

Lemma get_api_key_no_token_witness :
  exists e,
    get_api_key 1 (VStr "test") VNone 9 new_client (fresh (scripted script_token_number)) =
      (Raised e, new_client,
       token_requested (VStr "test") VNone 9 new_client
         (fresh (scripted script_token_number)))
    /\ exn_class e = TypeError.
Proof.
  apply (get_api_key_no_token 1 (VStr "test") VNone 9 new_client
           (fresh (scripted script_token_number))
           (mkResponse 204 None) (mkResponse 201 (Some (VDict [("app_token", VInt 7)]))));
    try reflexivity.
  intros app_token H. discriminate H.
Defined.

(** ** The handshake, round by round *)

Section PollRounds.
Variables (app_token : string) (timeout : Z) (self : OctoPrint).

Lemma polled_n_S k w :
  polled_n (S k) app_token timeout self w =
    polled_n k app_token timeout self (polled app_token timeout self w).
Proof. unfold polled_n. now rewrite Nat.iter_succ_r. Qed.

Lemma server_polled_n k w : server (polled_n k app_token timeout self w) = server w.
Proof.
  revert w. induction k as [|k IH]; intros w; [reflexivity|].
  rewrite polled_n_S, IH. reflexivity.
Qed.

Lemma length_log_polled_n k w :
  length (log (polled_n k app_token timeout self w)) = (length (log w) + k)%nat.
Proof.
  revert w. induction k as [|k IH]; intros w; [cbn; lia|].
  rewrite polled_n_S, IH, length_log_polled. lia.
Qed.

Lemma polled_n_world k w :
  polled_n k app_token timeout self w =
    {| server := server w;
       log := log w ++ replicate k (poll_request self app_token timeout);
       slept := slept w + k;
       stdout := stdout w |}.
Proof.
  revert w. induction k as [|k IH]; intros w.
  - destruct w; cbn. now rewrite app_nil_r, Nat.add_0_r.
  - rewrite polled_n_S, IH. unfold polled, asleep, sent; cbn [server log slept stdout].
    rewrite <- app_assoc. cbn [app replicate].
    now rewrite <- Nat.add_assoc.
Qed.

(** [k] rounds that are all answered 202 leave the loop where it was, [k]
    rounds on. *)
Lemma poll_while_202_pending_n k : forall fuel response w,
  status_code response = 202 ->
  (forall i, (i < k)%nat ->
     exists r, server w (length (log w) + i) = Responded r /\ status_code r = 202) ->
  exists response',
    status_code response' = 202
    /\ poll_while_202 (k + fuel) (VStr app_token) timeout response self w =
         poll_while_202 fuel (VStr app_token) timeout response' self
           (polled_n k app_token timeout self w).
Proof.
  induction k as [|k IH]; intros fuel response w H202 Hpending.
  - exists response. split; [exact H202 | reflexivity].
  - destruct (Hpending 0%nat) as (r & Hr & Sr); [lia|].
    rewrite Nat.add_0_r in Hr.
    destruct (IH fuel r (polled app_token timeout self w) Sr) as (r' & Sr' & E).
    { intros i Hi. rewrite length_log_polled.
      destruct (Hpending (S i)) as (ri & Hri & Sri); [lia|].
      exists ri. split; [|exact Sri].
      replace (S (length (log w)) + i)%nat with (length (log w) + S i)%nat by lia.
      exact Hri. }
    exists r'. split; [exact Sr'|].
    change (S k + fuel)%nat with (S (k + fuel)).
    rewrite (poll_while_202_pending _ _ _ _ _ _ r H202 Hr Sr), E.
    now rewrite polled_n_S.
Qed.

Lemma poll_while_202_request_failed fuel response w e :
  status_code response = 202 ->
  server w (length (log w)) = Failed e ->
  poll_while_202 (S fuel) (VStr app_token) timeout response self w =
    (Raised e, self, sent w (poll_request self app_token timeout)).
Proof.
  intros H202 He. cbn [poll_while_202]. rewrite H202.
  change (202 =? 202) with true. cbv iota. unfold_method.
  fold (poll_request self app_token timeout). rewrite He. reflexivity.
Qed.

Lemma poll_while_202_unexpected fuel response w r :
  status_code response = 202 ->
  server w (length (log w)) = Responded r ->
  status_code r <> 200 -> status_code r <> 202 -> status_code r <> 404 ->
  poll_while_202 (S fuel) (VStr app_token) timeout response self w =
    (Returned (VBool false), self, polled app_token timeout self w).
Proof.
  intros H202 Hr N200 N202 N404.
  rewrite (poll_while_202_round _ _ _ _ _ _ r H202 Hr).
  apply Z.eqb_neq in N200, N404. rewrite N200, N404.
  now apply poll_while_202_exit.
Qed.

Lemma poll_while_202_key_missing fuel response w r :
  status_code response = 202 ->
  server w (length (log w)) = Responded r ->
  status_code r = 200 ->
  field r "api_key" = None ->
  exists e,
    field_error r "api_key" e
    /\ poll_while_202 (S fuel) (VStr app_token) timeout response self w =
         (Raised e, self, polled app_token timeout self w).
Proof.
  intros H202 Hr S200 Hf.
  rewrite (poll_while_202_round _ _ _ _ _ _ r H202 Hr). rewrite S200.
  change (200 =? 200) with true. cbv iota. unfold_method.
  unfold field in Hf. unfold field_error.
  destruct (body r) as [[| | | | | |entries]|]; cbv beta iota;
    try (eexists; split; [|reflexivity]; reflexivity).
  rewrite Hf. eexists; split; [|reflexivity]; reflexivity.
Qed.
End PollRounds.

Section HandshakeRuns.
Variables (app_name user_name : Value) (timeout : Z).
Variables (self : OctoPrint) (w : World) (app_token : string).

Lemma polled_n_first_polled j :
  polled_n j app_token timeout self
    (first_polled app_name user_name timeout self w app_token) =
    handshake_world app_name user_name timeout self w app_token (S j) j.
Proof.
  rewrite polled_n_world. unfold first_polled, handshake_world, sent;
    cbn [server log slept stdout].
  f_equal. rewrite <- !app_assoc. reflexivity.
Qed.

Lemma polled_world polls rounds :
  polled app_token timeout self
    (handshake_world app_name user_name timeout self w app_token polls rounds) =
    handshake_world app_name user_name timeout self w app_token (S polls) (S rounds).
Proof.
  unfold polled, asleep, sent, handshake_world; cbn [server log slept stdout].
  f_equal; [|lia].
  rewrite <- !app_assoc. cbn [app]. do 2 f_equal.
  change (poll_request self app_token timeout
            :: replicate polls (poll_request self app_token timeout))
    with (replicate (S polls) (poll_request self app_token timeout)).
  rewrite <- replicate_S_end. reflexivity.
Qed.

Lemma sent_world polls rounds :
  sent (handshake_world app_name user_name timeout self w app_token polls rounds)
    (poll_request self app_token timeout) =
    handshake_world app_name user_name timeout self w app_token (S polls) rounds.
Proof.
  unfold sent, handshake_world; cbn [server log slept stdout].
  f_equal.
  rewrite <- !app_assoc. cbn [app]. do 2 f_equal.
  change (poll_request self app_token timeout
            :: replicate polls (poll_request self app_token timeout))
    with (replicate (S polls) (poll_request self app_token timeout)).
  rewrite <- replicate_S_end. reflexivity.
Qed.

(** After the token is granted and [S k] polls were answered 202, the
    method stands in its loop, [k] rounds on. *)
Lemma get_api_key_pending fuel k :
  token_granted w app_token ->
  pending_polls w (S k) ->
  exists response,
    status_code response = 202
    /\ get_api_key (k + fuel) app_name user_name timeout self w =
         poll_while_202 fuel (VStr app_token) timeout response self
           (handshake_world app_name user_name timeout self w app_token (S k) k)
    /\ length (log (handshake_world app_name user_name timeout self w app_token (S k) k))
       = (length (log w) + 2 + S k)%nat.
Proof.
  intros (r1 & r2 & H1 & S1 & H2 & S2 & Htok) Hpending.
  destruct (Hpending 0%nat) as (r3 & H3 & S3); [lia|].
  replace (length (log w) + 2 + 0)%nat with (S (S (length (log w)))) in H3 by lia.
  rewrite (get_api_key_polling _ _ _ _ _ _ r1 r2 r3 app_token H1 S1 H2 S2 Htok H3).
  destruct (poll_while_202_pending_n app_token timeout self k fuel r3
              (first_polled app_name user_name timeout self w app_token) S3)
    as (r' & Sr' & E).
  { intros i Hi. cbn [server first_polled sent]. rewrite length_log_first_polled.
    destruct (Hpending (S i)) as (ri & Hri & Sri); [lia|].
    exists ri. split; [|exact Sri].
    replace (S (S (S (length (log w)))) + i)%nat with (length (log w) + 2 + S i)%nat by lia.
    exact Hri. }
  exists r'. split; [exact Sr'|]. rewrite E, polled_n_first_polled.
  split; [reflexivity|].
  rewrite <- polled_n_first_polled, length_log_polled_n, length_log_first_polled. lia.
Qed.

(** X6: the handshake that succeeds.  The token is granted, the first
    poll and [k] more are answered 202, and the next is answered 200 with
    an ["api_key"]: the method returns [True], the object holds that key,
    its header and [connected], [k + 2] polls were sent after the probe
    and the token request, and the loop slept [k + 1] times. *)
Theorem get_api_key_approved_after fuel k r key :
  token_granted w app_token ->
  pending_polls w (S k) ->
  server w (length (log w) + 2 + S k) = Responded r ->
  status_code r = 200 ->
  field r "api_key" = Some key ->
  (k < fuel)%nat ->
  get_api_key fuel app_name user_name timeout self w =
    (Returned (VBool true), approved key self,
     handshake_world app_name user_name timeout self w app_token (k + 2) (k + 1)).
Proof.
  intros Htok Hpending Hr Sr Hkey Hfuel.
  replace fuel with (k + S (fuel - S k))%nat by lia.
  destruct (get_api_key_pending (S (fuel - S k)) k Htok Hpending) as (r' & Sr' & -> & Hl).
  rewrite (poll_while_202_approved _ _ _ _ _ _ r key Sr')
    by (rewrite ?Hl; assumption).
  rewrite polled_world.
  replace (k + 2)%nat with (S (S k)) by lia. now replace (k + 1)%nat with (S k) by lia.
Qed.

(** X7: the loop has no bound of its own.  While every poll is answered
    202 the method does not return: whatever the number of rounds it is
    given, it is still polling after them, with one request sent and one
    second slept in each, and the object as it was. *)
Theorem get_api_key_polls_forever fuel :
  token_granted w app_token ->
  (forall k, pending_polls w k) ->
  get_api_key fuel app_name user_name timeout self w =
    (OutOfFuel, self,
     handshake_world app_name user_name timeout self w app_token (S fuel) fuel).
Proof.
  intros Htok Hpending.
  replace fuel with (fuel + 0)%nat at 1 by lia.
  destruct (get_api_key_pending 0 fuel Htok (Hpending (S fuel))) as (r' & Sr' & -> & _).
  now apply poll_while_202_starved.
Qed.

(** X8: a status that the loop does not know ends the handshake without
    a word.  After polls answered 202, a poll answered with a status
    other than 200, 202 and 404 (a 500, say) makes the method return
    [False]; nothing is raised and nothing is stored. *)
Theorem get_api_key_unexpected_status fuel k r :
  token_granted w app_token ->
  pending_polls w (S k) ->
  server w (length (log w) + 2 + S k) = Responded r ->
  status_code r <> 200 -> status_code r <> 202 -> status_code r <> 404 ->
  (k < fuel)%nat ->
  get_api_key fuel app_name user_name timeout self w =
    (Returned (VBool false), self,
     handshake_world app_name user_name timeout self w app_token (k + 2) (k + 1)).
Proof.
  intros Htok Hpending Hr N200 N202 N404 Hfuel.
  replace fuel with (k + S (fuel - S k))%nat by lia.
  destruct (get_api_key_pending (S (fuel - S k)) k Htok Hpending) as (r' & Sr' & -> & Hl).
  rewrite (poll_while_202_unexpected _ _ _ _ _ _ r Sr')
    by (rewrite ?Hl; assumption).
  rewrite polled_world.
  replace (k + 2)%nat with (S (S k)) by lia. now replace (k + 1)%nat with (S k) by lia.
Qed.

(** X9: denial, as the loop sees it.  After polls answered 202, a poll
    answered 404 raises [Exception("User denied access")] and leaves the
    object as it was. *)
Theorem get_api_key_denied_after fuel k r :
  token_granted w app_token ->
  pending_polls w (S k) ->
  server w (length (log w) + 2 + S k) = Responded r ->
  status_code r = 404 ->
  (k < fuel)%nat ->
  get_api_key fuel app_name user_name timeout self w =
    (Raised (mkExn Exception "User denied access"), self,
     handshake_world app_name user_name timeout self w app_token (k + 2) (k + 1)).
Proof.
  intros Htok Hpending Hr S404 Hfuel.
  replace fuel with (k + S (fuel - S k))%nat by lia.
  destruct (get_api_key_pending (S (fuel - S k)) k Htok Hpending) as (r' & Sr' & -> & Hl).
  rewrite (poll_while_202_denied _ _ _ _ _ _ r Sr')
    by (rewrite ?Hl; assumption).
  rewrite polled_world.
  replace (k + 2)%nat with (S (S k)) by lia. now replace (k + 1)%nat with (S k) by lia.
Qed.

(** X10: an approval without a key is an error, not a success.  After
    polls answered 202, a poll answered 200 whose body does not deliver
    an ["api_key"] raises (the exception of the parser for a body that
    does not parse, [KeyError] for a [dict] without the key, [TypeError]
    for a body that is no [dict]) and the object is as it was, without
    the key and not connected by the call. *)
Theorem get_api_key_approved_without_key fuel k r :
  token_granted w app_token ->
  pending_polls w (S k) ->
  server w (length (log w) + 2 + S k) = Responded r ->
  status_code r = 200 ->
  field r "api_key" = None ->
  (k < fuel)%nat ->
  exists e,
    field_error r "api_key" e
    /\ get_api_key fuel app_name user_name timeout self w =
         (Raised e, self,
          handshake_world app_name user_name timeout self w app_token (k + 2) (k + 1)).
Proof.
  intros Htok Hpending Hr S200 Hf Hfuel.
  replace fuel with (k + S (fuel - S k))%nat by lia.
  destruct (get_api_key_pending (S (fuel - S k)) k Htok Hpending) as (r' & Sr' & -> & Hl).
  destruct (poll_while_202_key_missing app_token timeout self (fuel - S k) r'
              (handshake_world app_name user_name timeout self w app_token (S k) k) r Sr')
    as (e & He & ->); [rewrite ?Hl; assumption | assumption | assumption |].
  exists e. split; [exact He|]. rewrite polled_world.
  replace (k + 2)%nat with (S (S k)) by lia. now replace (k + 1)%nat with (S k) by lia.
Qed.

(** X11: a poll that fails in transport inside the loop raises the
    exception of the transport as it is; the failed poll is in the log,
    the round is not slept, and the object is as it was. *)
Theorem get_api_key_poll_failed fuel k e :
  token_granted w app_token ->
  pending_polls w (S k) ->
  server w (length (log w) + 2 + S k) = Failed e ->
  (k < fuel)%nat ->
  get_api_key fuel app_name user_name timeout self w =
    (Raised e, self,
     handshake_world app_name user_name timeout self w app_token (k + 2) k).
Proof.
  intros Htok Hpending He Hfuel.
  replace fuel with (k + S (fuel - S k))%nat by lia.
  destruct (get_api_key_pending (S (fuel - S k)) k Htok Hpending) as (r' & Sr' & -> & Hl).
  rewrite (poll_while_202_request_failed _ _ _ _ _ _ e Sr')
    by (rewrite ?Hl; assumption).
  rewrite sent_world.
  now replace (k + 2)%nat with (S (S k)) by lia.
Qed.
End HandshakeRuns.

Lemma scripted_token_granted rest :
  token_granted (fresh (scripted (reply 204 None :: granted_token :: rest))) "tok".
Proof.
  exists (mkResponse 204 None), (mkResponse 201 (Some (VDict [("app_token", VStr "tok")]))).
  repeat split.
Qed.

Lemma scripted_pending_once rest :
  pending_polls
    (fresh (scripted (reply 204 None :: granted_token :: reply 202 None :: rest))) 1.
Proof.
  intros i Hi. assert (i = 0%nat) as -> by lia.
  exists (mkResponse 202 None). split; reflexivity.
Qed.

Lemma never_decided_token_granted : token_granted (fresh never_decided) "tok".
Proof.
  exists (mkResponse 204 None), (mkResponse 201 (Some (VDict [("app_token", VStr "tok")]))).
  repeat split.
Qed.

Lemma never_decided_pending k : pending_polls (fresh never_decided) k.
Proof. intros i _. exists (mkResponse 202 None). split; reflexivity. Qed.

Lemma get_api_key_approved_after_witness :
  get_api_key 1 (VStr "test") VNone 9 new_client (fresh (scripted script_202_200)) =
    (Returned (VBool true), approved (VStr "k") new_client,
     handshake_world (VStr "test") VNone 9 new_client (fresh (scripted script_202_200))
       "tok" 2 1).
Proof.
  apply (get_api_key_approved_after (VStr "test") VNone 9 new_client
           (fresh (scripted script_202_200)) "tok" 1 0
           (mkResponse 200 (Some (VDict [("api_key", VStr "k")]))) (VStr "k")).
  - apply scripted_token_granted.
  - apply scripted_pending_once.
  - reflexivity.
  - reflexivity.
  - reflexivity.
  - lia.
Defined.

Lemma get_api_key_polls_forever_witness :
  get_api_key 5 (VStr "test") VNone 9 new_client (fresh never_decided) =
    (OutOfFuel, new_client,
     handshake_world (VStr "test") VNone 9 new_client (fresh never_decided) "tok" 6 5).
Proof.
  apply (get_api_key_polls_forever (VStr "test") VNone 9 new_client (fresh never_decided)
           "tok" 5).
  - apply never_decided_token_granted.
  - apply never_decided_pending.
Defined.

Lemma get_api_key_unexpected_status_witness :
  get_api_key 1 (VStr "test") VNone 9 new_client (fresh (scripted script_202_500)) =
    (Returned (VBool false), new_client,
     handshake_world (VStr "test") VNone 9 new_client (fresh (scripted script_202_500))
       "tok" 2 1).
Proof.
  apply (get_api_key_unexpected_status (VStr "test") VNone 9 new_client
           (fresh (scripted script_202_500)) "tok" 1 0 (mkResponse 500 None)).
  - apply scripted_token_granted.
  - apply scripted_pending_once.
  - reflexivity.
  - discriminate.
  - discriminate.
  - discriminate.
  - lia.
Defined.

Lemma get_api_key_denied_after_witness :
  get_api_key 1 (VStr "test") VNone 9 new_client (fresh (scripted script_202_404)) =
    (Raised (mkExn Exception "User denied access"), new_client,
     handshake_world (VStr "test") VNone 9 new_client (fresh (scripted script_202_404))
       "tok" 2 1).
Proof.
  apply (get_api_key_denied_after (VStr "test") VNone 9 new_client
           (fresh (scripted script_202_404)) "tok" 1 0 (mkResponse 404 None)).
  - apply scripted_token_granted.
  - apply scripted_pending_once.
  - reflexivity.
  - reflexivity.
  - lia.
Defined.

Lemma get_api_key_approved_without_key_witness :
  exists e,
    e = mkExn KeyError "api_key"
    /\ get_api_key 1 (VStr "test") VNone 9 new_client
         (fresh (scripted script_202_200_no_key)) =
         (Raised e, new_client,
          handshake_world (VStr "test") VNone 9 new_client
            (fresh (scripted script_202_200_no_key)) "tok" 2 1).
Proof.
  apply (get_api_key_approved_without_key (VStr "test") VNone 9 new_client
           (fresh (scripted script_202_200_no_key)) "tok" 1 0
           (mkResponse 200 (Some (VDict [])))).
  - apply scripted_token_granted.
  - apply scripted_pending_once.
  - reflexivity.
  - reflexivity.
  - reflexivity.
  - lia.
Defined.

Lemma get_api_key_poll_failed_witness :
  get_api_key 1 (VStr "test") VNone 9 new_client (fresh (scripted script_202_dropped)) =
    (Raised (mkExn ConnectionError "Connection refused"), new_client,
     handshake_world (VStr "test") VNone 9 new_client (fresh (scripted script_202_dropped))
       "tok" 2 0).
Proof.
  apply (get_api_key_poll_failed (VStr "test") VNone 9 new_client
           (fresh (scripted script_202_dropped)) "tok" 1 0
           (mkExn ConnectionError "Connection refused")).
  - apply scripted_token_granted.
  - apply scripted_pending_once.
  - reflexivity.
  - lia.
Defined.

(** ** What the handshake stores, and when *)

Lemma poll_while_202_stores fuel app_token timeout :
  forall response self w result self' w',
    poll_while_202 fuel app_token timeout response self w = (result, self', w') ->
    stores_on_success (server w) self result self'.
Proof.
  induction fuel as [|fuel IH]; intros response self w result self' w' Hrun;
    cbn [poll_while_202] in Hrun.
  - destruct (status_code response =? 202); inversion Hrun; subst;
      right; (split; [discriminate | reflexivity]).
  - destruct (status_code response =? 202);
      [|inversion Hrun; subst; right; (split; [discriminate | reflexivity])].
    unfold _set_api_key in Hrun. run_method Hrun.
    destruct app_token as [| | | |tok| |];
      try (inversion Hrun; subst; right; (split; [discriminate | reflexivity])).
    destruct (server w (length (log w))) as [r|e] eqn:Hr;
      [|inversion Hrun; subst; right; (split; [discriminate | reflexivity])].
    destruct (status_code r =? 200) eqn:H200.
    + destruct (body r) as [payload|] eqn:Hbody;
        [|inversion Hrun; subst; right; (split; [discriminate | reflexivity])].
      destruct payload as [| | | | | |entries];
        try (inversion Hrun; subst; right; (split; [discriminate | reflexivity])).
      destruct (dict_get entries "api_key") as [key|] eqn:Hkey;
        [|inversion Hrun; subst; right; (split; [discriminate | reflexivity])].
      inversion Hrun; subst. left. split; [reflexivity|].
      exists key. split; [|reflexivity].
      exists (length (log w)), r.
      split; [exact Hr|]. split; [now apply Z.eqb_eq|].
      unfold field. now rewrite Hbody.
    + destruct (status_code r =? 404);
        [inversion Hrun; subst; right; (split; [discriminate | reflexivity])|].
      apply IH in Hrun. exact Hrun.
Qed.

Lemma get_api_key_stores fuel app_name user_name timeout self w result self' w' :
  get_api_key fuel app_name user_name timeout self w = (result, self', w') ->
  stores_on_success (server w) self result self'.
Proof.
  intros Hrun. unfold get_api_key in Hrun.
  unfold bind at 1, get_self at 1, bind at 1, try_except, requests_get at 1, http at 1
    in Hrun.
  destruct (server w (length (log w))) as [r1|e1].
  2:{ cbn [first_handler] in Hrun.
      destruct (isinstance e1 ReadTimeout);
        [inversion Hrun; subst; right; (split; [discriminate | reflexivity])|].
      destruct (isinstance e1 ConnectionError);
        inversion Hrun; subst; right; (split; [discriminate | reflexivity]). }
  destruct (status_code r1 =? 204);
    [|inversion Hrun; subst; right; (split; [discriminate | reflexivity])].
  unfold bind at 1, get_self at 1, bind at 1, requests_post at 1, http at 1 in Hrun.
  destruct (server _ _) as [r2|e2];
    [|inversion Hrun; subst; right; (split; [discriminate | reflexivity])].
  destruct (status_code r2 =? 201);
    [|inversion Hrun; subst; right; (split; [discriminate | reflexivity])].
  unfold bind at 1, json at 1 in Hrun.
  destruct (body r2) as [payload|];
    [|inversion Hrun; subst; right; (split; [discriminate | reflexivity])].
  unfold ret at 1, bind at 1, getitem at 1 in Hrun.
  assert (Hpoll : forall app_token w0,
    server w0 = server w ->
    (let! self0 := get_self in
     let! url := str_add (base_url self0 +:+ "plugin/appkeys/request/") app_token in
     let! response := requests_get url (headers self0) timeout in
     poll_while_202 fuel app_token timeout response) self w0 = (result, self', w') ->
    stores_on_success (server w) self result self').
  { clear Hrun. intros app_token w0 Hw0 Hrun.
    unfold bind at 1, get_self at 1, bind at 1, str_add at 1 in Hrun.
    destruct app_token as [| | | |tok| |];
      try (inversion Hrun; subst; right; (split; [discriminate | reflexivity])).
    unfold ret at 1, bind at 1, requests_get at 1, http at 1 in Hrun.
    destruct (server _ _) as [r3|e3];
      [|inversion Hrun; subst; right; (split; [discriminate | reflexivity])].
    apply poll_while_202_stores in Hrun. cbn [server sent] in Hrun.
    now rewrite Hw0 in Hrun. }
  destruct payload as [| | | | | |entries];
    try (unfold raise at 1 in Hrun; inversion Hrun; subst; right;
         (split; [discriminate | reflexivity])).
  destruct (dict_get entries "app_token") as [app_token|];
    [|unfold raise at 1 in Hrun; inversion Hrun; subst; right;
      (split; [discriminate | reflexivity])].
  unfold ret at 1 in Hrun. eapply (Hpoll app_token); [|exact Hrun]. reflexivity.
Qed.

(** X12: the handshake stores a credential exactly when it returns
    [True].  In every run, whatever the server does and however long the
    run is followed, either the method returned [True] and the object is
    connected with a key that a 200 response of the server delivered, or
    it did not (it returned [False], raised, or is still polling) and the
    object is as it was. *)
Theorem get_api_key_stores_iff_true fuel app_name user_name timeout self w :
  stores_on_success (server w) self
    (fst (fst (get_api_key fuel app_name user_name timeout self w)))
    (snd (fst (get_api_key fuel app_name user_name timeout self w))).
Proof.
  destruct (get_api_key fuel app_name user_name timeout self w)
    as [[result self'] w'] eqn:Hrun.
  now apply get_api_key_stores in Hrun.
Qed.

(** ** Invariants of the object *)

Lemma object_after_in_sync srv c self self' :
  object_after srv c self self' -> headers_in_sync self -> headers_in_sync self'.
Proof.
  unfold headers_in_sync.
  destruct c; cbn [object_after]; intros H Hinv; subst; try assumption.
  - now right.
  - destruct H as [-> | (n & r & key & _ & _ & _ & ->)]; [assumption | now right].
  - destruct H as [-> | ->]; assumption.
Qed.

Lemma after_calls_in_sync cs : forall self w,
  headers_in_sync self -> headers_in_sync (fst (after_calls cs self w)).
Proof.
  induction cs as [|c cs IH]; intros self w Hinv; [exact Hinv|].
  rewrite after_calls_cons.
  destruct (call c self w) as [[result self'] w'] eqn:Hrun.
  apply call_effect in Hrun as (_ & Ho & _). cbn [fst snd].
  apply IH. now apply (object_after_in_sync (server w) c self).
Qed.

(** X13: the header set always follows the key.  After any series of
    calls on a new object, whatever the server did, the object has
    neither key nor header, or its only header is ["X-Api-Key"] with the
    stored key as its value. *)
Theorem headers_follow_api_key host port path srv cs :
  headers_in_sync (fst (after_calls cs (__init__ host port path) (fresh srv))).
Proof. apply after_calls_in_sync. now left. Qed.

Lemma after_calls_connected cs : forall self w,
  connected (fst (after_calls cs self w)) = true ->
  connected self = true
  \/ (Exists (fun c => is_handshake c = true) cs /\ exists key, approves (server w) key).
Proof.
  induction cs as [|c cs IH]; intros self w Hc; [now left|].
  rewrite after_calls_cons in Hc.
  destruct (call c self w) as [[result self'] w'] eqn:Hrun.
  apply call_effect in Hrun as (Hs & Ho & _). cbn [fst snd] in Hc.
  apply IH in Hc as [Hc | (Hex & key & Hkey)].
  - destruct c; cbn [object_after] in Ho; subst; try (now left).
    + destruct Ho as [-> | (n & r & key & Hr & S200 & Hf & ->)]; [now left|].
      right. split; [now constructor|]. exists key, n, r. auto.
    + destruct Ho as [-> | ->]; [now left | discriminate].
  - right. split; [now apply Exists_cons_tl|]. exists key. now rewrite <- Hs.
Qed.

(** X14: only an approved handshake connects.  If the object is connected
    after a series of calls on a new object, then [get_api_key] is among
    the calls and the server sent a 200 response with an ["api_key"]; no
    series of other calls, [_set_api_key] with whatever key among them,
    makes [connected] true. *)
Theorem connected_only_by_handshake host port path srv cs :
  connected (fst (after_calls cs (__init__ host port path) (fresh srv))) = true ->
  Exists (fun c => is_handshake c = true) cs /\ exists key, approves srv key.
Proof.
  intros Hc. apply after_calls_connected in Hc as [Hc | H]; [discriminate | exact H].
Qed.

Lemma connected_only_by_handshake_witness :
  Exists (fun c => is_handshake c = true)
    [Call_set_api_key (VStr "saved"); Call_get_api_key 1 (VStr "test") VNone 9]
  /\ exists key, approves (scripted script_202_200) key.
Proof.
  apply (connected_only_by_handshake "h" 81 "/x/" (scripted script_202_200)
           [Call_set_api_key (VStr "saved"); Call_get_api_key 1 (VStr "test") VNone 9]).
  reflexivity.
Defined.

(** ** Revocation, further *)

(** X15: [deregister] when the transport fails.  A [ConnectionError] (a
    [ConnectTimeout] too) is caught: the method prints "Could not
    connect." and returns [False].  Every other exception, the
    [ReadTimeout] of its one-second timeout among them, comes out of the
    method.  The object is as it was in both cases. *)
Theorem deregister_on_failure self w e :
  server w (length (log w)) = Failed e ->
  (isinstance e ConnectionError = true ->
     deregister self w =
       (Returned (VBool false), self,
        printed "Could not connect." (sent w (revoke_request self))))
  /\ (isinstance e ConnectionError = false ->
     deregister self w = (Raised e, self, sent w (revoke_request self))).
Proof.
  intros He. rewrite (deregister_failed self w e He).
  split; intros ->; reflexivity.
Qed.

Lemma deregister_on_failure_witness :
  deregister connected_client (fresh (scripted [])) =
    (Returned (VBool false), connected_client,
     printed "Could not connect."
       (sent (fresh (scripted [])) (revoke_request connected_client)))
  /\ deregister connected_client (fresh (scripted script_refused_read_timeout)) =
    (Raised (mkExn ReadTimeout "Read timed out. (read timeout=1)"), connected_client,
     sent (fresh (scripted script_refused_read_timeout)) (revoke_request connected_client)).
Proof.
  split.
  - apply (deregister_on_failure connected_client (fresh (scripted []))
             (mkExn ConnectionError "Connection refused")); reflexivity.
  - apply (deregister_on_failure connected_client
             (fresh (scripted script_refused_read_timeout))
             (mkExn ReadTimeout "Read timed out. (read timeout=1)")); reflexivity.
Defined.

(** X16: revocation keeps the credential.  Whatever [deregister] returns
    or raises, the key and the header set stay in the object, so the
    request of a read method that follows still carries them: the log
    holds the revoke request and then the read request, both built from
    the object as it was before the revocation. *)
Theorem deregister_keeps_key m self w :
  let self1 := snd (fst (deregister self w)) in
  let w1 := snd (deregister self w) in
  api_key self1 = api_key self
  /\ headers self1 = headers self
  /\ log (snd (read m self1 w1)) =
       (log w ++ [revoke_request self; read_request self m])%list.
Proof.
  intros self1 w1. subst self1 w1.
  assert (exists self1 w1 result,
    deregister self w = (result, self1, w1)
    /\ (self1 = self \/ self1 = with_connected false self)
    /\ log w1 = (log w ++ [revoke_request self])%list) as (self1 & w1 & result & -> & Hself & Hlog).
  { destruct (server w (length (log w))) as [r | e] eqn:Hs.
    - rewrite (deregister_responded self w r Hs).
      destruct (status_code r =? 204); do 3 eexists; (split; [reflexivity|]); auto.
    - rewrite (deregister_failed self w e Hs).
      destruct (isinstance e ConnectionError); do 3 eexists;
        (split; [reflexivity|]); auto. }
  cbn [fst snd].
  assert (api_key self1 = api_key self /\ headers self1 = headers self
          /\ base_url self1 = base_url self) as (Hk & Hh & Hb)
    by (destruct Hself as [-> | ->]; repeat split).
  split; [exact Hk|]. split; [exact Hh|].
  destruct (read m self1 w1) as [[result2 self2] w2] eqn:Hread.
  rewrite read_sub_path_correct in Hread.
  apply get_json_or_False_effect in Hread as (_ & _ & ->).
  cbn [snd sent log]. rewrite Hlog, <- app_assoc. cbn [app].
  unfold read_request. now rewrite Hb, Hh.
Qed.

(** ** Read methods, further *)

Lemma get_json_or_False_failed sub self w e :
  server w (length (log w)) = Failed e ->
  get_json_or_False sub self w =
    (if isinstance e ValueError then Returned (VBool false) else Raised e, self,
     sent w (mkRequest GET (base_url self +:+ sub) (headers self) None 9)).
Proof.
  intros He. unfold get_json_or_False. unfold_method. rewrite He. cbv beta iota.
  unfold first_handler. destruct (isinstance e ValueError); reflexivity.
Qed.

(** X17: a read method whose response has a body that parses returns what
    the body parses to, whatever the status of the response (the status
    is never looked at); the object is as it was. *)
Theorem read_returns_payload m self w r v :
  server w (length (log w)) = Responded r ->
  body r = Some v ->
  read m self w = (Returned v, self, sent w (read_request self m)).
Proof.
  intros Hr Hb. rewrite read_sub_path_correct.
  rewrite (get_json_or_False_responded _ _ _ r Hr). now rewrite Hb.
Qed.

Lemma read_returns_payload_witness :
  read Get_printer_version new_client (fresh (scripted script_version)) =
    (Returned (VDict [("api", VStr "0.1"); ("server", VStr "1.3.10")]), new_client,
     sent (fresh (scripted script_version)) (read_request new_client Get_printer_version)).
Proof.
  apply (read_returns_payload Get_printer_version new_client
           (fresh (scripted script_version))
           (mkResponse 200 (Some (VDict [("api", VStr "0.1"); ("server", VStr "1.3.10")]))));
    reflexivity.
Defined.

(** X18: a read method whose request fails in transport.  An exception
    that is a [ValueError] (an invalid URL, say) is taken for a malformed
    body and answered [False]; every other exception, a refused
    connection or a timeout, comes out of the method.  The object is as
    it was, and the one request is in the log. *)
Theorem read_on_failure m self w e :
  server w (length (log w)) = Failed e ->
  (isinstance e ValueError = true ->
     read m self w = (Returned (VBool false), self, sent w (read_request self m)))
  /\ (isinstance e ValueError = false ->
     read m self w = (Raised e, self, sent w (read_request self m))).
Proof.
  intros He. rewrite read_sub_path_correct.
  rewrite (get_json_or_False_failed _ _ _ e He).
  split; intros ->; reflexivity.
Qed.

Lemma read_on_failure_witness :
  read Get_printer_job new_client (fresh (scripted script_invalid_url)) =
    (Returned (VBool false), new_client,
     sent (fresh (scripted script_invalid_url)) (read_request new_client Get_printer_job))
  /\ read Get_printer_job new_client (fresh (scripted [])) =
    (Raised (mkExn ConnectionError "Connection refused"), new_client,
     sent (fresh (scripted [])) (read_request new_client Get_printer_job)).
Proof.
  split.
  - apply (read_on_failure Get_printer_job new_client (fresh (scripted script_invalid_url))
             (mkExn InvalidURL "Failed to parse URL")); reflexivity.
  - apply (read_on_failure Get_printer_job new_client (fresh (scripted []))
             (mkExn ConnectionError "Connection refused")); reflexivity.
Defined.

(** ** Commands, further *)

Lemma post_job_command_connected action self w :
  connected self = true ->
  post_job_command action self w =
    match server w (length (log w)) with
    | Responded r => (Returned (OResponse r), self, sent w (job_request self action))
    | Failed e =>
        if isinstance e ConnectionError
        then (Returned (OValue (VBool false)), self,
              printed "Connection refused." (sent w (job_request self action)))
        else (Raised e, self, sent w (job_request self action))
    end.
Proof.
  intros Hc. unfold post_job_command. unfold_method. rewrite Hc.
  fold (job_request self action).
  destruct (server w (length (log w))) as [r|e]; [reflexivity|].
  cbv beta iota. unfold first_handler.
  destruct (isinstance e ConnectionError); reflexivity.
Qed.

(** X19: on a connected object [pause_print] and [resume_print] each send
    one POST to [api/job], with the command ["pause"] in both and the
    actions ["pause"] and ["resume"], and return the response object
    whatever its status is: a 409 or a 500 is handed back like a 204, and
    only the caller can tell them apart. *)
Theorem pause_resume_connected self w r :
  connected self = true ->
  server w (length (log w)) = Responded r ->
  pause_print self w =
    (Returned (OResponse r), self,
     sent w (mkRequest POST (base_url self +:+ "api/job") (headers self)
               (Some (VDict [("command", VStr "pause"); ("action", VStr "pause")])) 9))
  /\ resume_print self w =
    (Returned (OResponse r), self,
     sent w (mkRequest POST (base_url self +:+ "api/job") (headers self)
               (Some (VDict [("command", VStr "pause"); ("action", VStr "resume")])) 9)).
Proof.
  intros Hc Hr. unfold pause_print, resume_print.
  rewrite !(post_job_command_connected _ _ _ Hc), Hr. split; reflexivity.
Qed.

Lemma pause_resume_connected_witness :
  pause_print connected_client (fresh (scripted script_conflict)) =
    (Returned (OResponse (mkResponse 409 None)), connected_client,
     sent (fresh (scripted script_conflict))
       (mkRequest POST "http://h:81/x/api/job" {[ "X-Api-Key" := VStr "k" ]}
          (Some (VDict [("command", VStr "pause"); ("action", VStr "pause")])) 9))
  /\ resume_print connected_client (fresh (scripted script_conflict)) =
    (Returned (OResponse (mkResponse 409 None)), connected_client,
     sent (fresh (scripted script_conflict))
       (mkRequest POST "http://h:81/x/api/job" {[ "X-Api-Key" := VStr "k" ]}
          (Some (VDict [("command", VStr "pause"); ("action", VStr "resume")])) 9)).
Proof.
  apply (pause_resume_connected connected_client (fresh (scripted script_conflict))
           (mkResponse 409 None)); reflexivity.
Defined.

(** X20: on a connected object, a command whose request fails in
    transport: a [ConnectionError] is caught, "Connection refused." is
    printed and [False] returned; every other exception comes out of the
    method.  The object stays connected. *)
Theorem pause_resume_on_failure self w e :
  connected self = true ->
  server w (length (log w)) = Failed e ->
  (isinstance e ConnectionError = true ->
     pause_print self w =
       (Returned (OValue (VBool false)), self,
        printed "Connection refused." (sent w (job_request self "pause")))
     /\ resume_print self w =
       (Returned (OValue (VBool false)), self,
        printed "Connection refused." (sent w (job_request self "resume"))))
  /\ (isinstance e ConnectionError = false ->
     pause_print self w = (Raised e, self, sent w (job_request self "pause"))
     /\ resume_print self w = (Raised e, self, sent w (job_request self "resume"))).
Proof.
  intros Hc He. unfold pause_print, resume_print.
  rewrite !(post_job_command_connected _ _ _ Hc), He.
  split; intros ->; split; reflexivity.
Qed.

Lemma pause_resume_on_failure_witness :
  (pause_print connected_client (fresh (scripted [])) =
     (Returned (OValue (VBool false)), connected_client,
      printed "Connection refused."
        (sent (fresh (scripted [])) (job_request connected_client "pause")))
   /\ resume_print connected_client (fresh (scripted [])) =
     (Returned (OValue (VBool false)), connected_client,
      printed "Connection refused."
        (sent (fresh (scripted [])) (job_request connected_client "resume"))))
  /\ (pause_print connected_client (fresh (scripted script_probe_timeout)) =
        (Raised (mkExn ReadTimeout "Read timed out."), connected_client,
         sent (fresh (scripted script_probe_timeout)) (job_request connected_client "pause"))
      /\ resume_print connected_client (fresh (scripted script_probe_timeout)) =
        (Raised (mkExn ReadTimeout "Read timed out."), connected_client,
         sent (fresh (scripted script_probe_timeout))
           (job_request connected_client "resume"))).
Proof.
  split.
  - apply (pause_resume_on_failure connected_client (fresh (scripted []))
             (mkExn ConnectionError "Connection refused")); reflexivity.
  - apply (pause_resume_on_failure connected_client (fresh (scripted script_probe_timeout))
             (mkExn ReadTimeout "Read timed out.")); reflexivity.
Defined.

(** X21: [set_printer_settings] has neither the guard nor the handler of
    the commands.  On an object that is not connected, where
    [pause_print] sends nothing, it sends its POST all the same, and a
    refused connection comes out of it as the exception of the
    transport. *)
Theorem set_printer_settings_unguarded self w :
  connected self = false ->
  pause_print self w = (Returned (OValue (VBool false)), self, w)
  /\ set_printer_settings self w =
       (match server w (length (log w)) with
        | Responded r => Returned (OResponse r)
        | Failed e => Raised e
        end, self, sent w (settings_request self)).
Proof.
  intros Hc. split.
  - unfold pause_print, post_job_command, bind, get_self. now rewrite Hc.
  - unfold set_printer_settings. unfold_method. fold (settings_request self).
    destruct (server w (length (log w))); reflexivity.
Qed.

Lemma set_printer_settings_unguarded_witness :
  pause_print new_client (fresh (scripted [])) =
    (Returned (OValue (VBool false)), new_client, fresh (scripted []))
  /\ set_printer_settings new_client (fresh (scripted [])) =
       (Raised (mkExn ConnectionError "Connection refused"), new_client,
        sent (fresh (scripted [])) (settings_request new_client)).
Proof.
  apply (set_printer_settings_unguarded new_client (fresh (scripted []))).
  reflexivity.
Defined.

(** ** Requests, further *)

Lemma request_of_headers c self rq :
  request_of c self rq -> rq_headers rq = headers self.
Proof.
  destruct c; cbn [request_of]; intros H; try contradiction; subst; try reflexivity.
  destruct H as [-> | [-> | [app_token ->]]]; reflexivity.
Qed.

(** X22: every request of a call carries the header set that the object
    had when the call began.  The requests of a handshake therefore never
    carry the key that the handshake obtains, and on a new object they
    carry no header at all. *)
Theorem requests_carry_headers c self w :
  logs (fun rq => rq_headers rq = headers self) w (snd (call c self w)).
Proof.
  destruct (call c self w) as [[result self'] w'] eqn:Hrun.
  apply call_effect in Hrun as (_ & _ & Hl). cbn [snd].
  eapply logs_impl; [|exact Hl]. intros rq. apply request_of_headers.
Qed.

(** X23: the base URL is ["http://"], the host, [":"], the port in
    decimal and the path, put together as they are given (no slash is
    added or removed), and after any series of calls on the object every
    request that a further call sends goes to that base URL followed by a
    sub-path of the call. *)
Theorem requests_go_to_base_url host port path srv cs c :
  let self := fst (after_calls cs (__init__ host port path) (fresh srv)) in
  let w := snd (after_calls cs (__init__ host port path) (fresh srv)) in
  logs (url_under ("http://" +:+ host +:+ ":" +:+ pretty port +:+ path) c)
    w (snd (call c self w)).
Proof.
  intros self w.
  assert (Hbase : base_url self = "http://" +:+ host +:+ ":" +:+ pretty port +:+ path)
    by (unfold self; now rewrite after_calls_base_url).
  rewrite <- Hbase. apply call_urls.
Qed.

(** ** [test_op_api.main] *)

Lemma main_after_handshake str fuel w v self1 w1 r :
  get_api_key fuel (VStr "test") VNone 9 test_client w = (Returned v, self1, w1) ->
  server w1 (length (log w1)) = Responded r ->
  let asked :=
    sent (printed ("Got: %s " +:+ str (api_key self1)) w1)
      (mkRequest GET (base_url self1 +:+ "api/printer") (headers self1) None 9) in
  main str fuel w =
    match body r with
    | Some status => (Returned VNone, self1, printed (str status) asked)
    | None =>
        if isinstance (decode_error r) ValueError
        then (Returned VNone, self1, printed (str (VBool false)) asked)
        else (Raised (decode_error r), self1, asked)
    end.
Proof.
  intros Hrun Hr asked. unfold main. fold test_client.
  unfold bind at 1. rewrite Hrun.
  unfold bind at 1, get_self at 1. unfold bind at 1, print at 1.
  unfold bind at 1, get_printer_status.
  rewrite (get_json_or_False_responded _ _ _ r) by exact Hr.
  destruct (body r); [reflexivity|].
  destruct (isinstance (decode_error r) ValueError); reflexivity.
Qed.

(** X24: [main] does not look at what the handshake returns.  When
    [get_api_key] returns anything but [True] (the server approved at the
    first poll, or answered a poll with a status the loop does not know),
    [main] prints the key that is not there and asks for the printer
    status with no header at all.  It then prints the status if the body
    parses, prints [False] if the parser raises a [ValueError], and
    raises what the parser raises if that is no [ValueError]. *)
Theorem main_ignores_failed_handshake str fuel w v self1 w1 r :
  get_api_key fuel (VStr "test") VNone 9 test_client w = (Returned v, self1, w1) ->
  v <> VBool true ->
  server w1 (length (log w1)) = Responded r ->
  let asked :=
    sent (printed ("Got: %s " +:+ str VNone) w1)
      (mkRequest GET "http://192.168.1.212:5000/api/printer" ∅ None 9) in
  (forall status, body r = Some status ->
     main str fuel w = (Returned VNone, test_client, printed (str status) asked))
  /\ (body r = None -> isinstance (decode_error r) ValueError = true ->
      main str fuel w =
        (Returned VNone, test_client, printed (str (VBool false)) asked))
  /\ (body r = None -> isinstance (decode_error r) ValueError = false ->
      main str fuel w = (Raised (decode_error r), test_client, asked)).
Proof.
  intros Hrun Hv Hr asked.
  rewrite (main_after_handshake str fuel w v self1 w1 r Hrun Hr).
  apply get_api_key_stores in Hrun as [[Htrue _] | [_ ->]]; [congruence|].
  repeat split.
  - intros status ->. reflexivity.
  - intros -> ->. reflexivity.
  - intros -> ->. reflexivity.
Qed.

Lemma main_ignores_failed_handshake_witness :
  main sample_str 1 (fresh (scripted script_main_immediate_200)) =
    (Returned VNone, test_client,
     {| server := scripted script_main_immediate_200;
        log := [mkRequest GET "http://192.168.1.212:5000/plugin/appkeys/probe" ∅ None 9;
                mkRequest POST "http://192.168.1.212:5000/plugin/appkeys/request" ∅
                  (Some (VDict [("app", VStr "test"); ("user", VNone)])) 9;
                mkRequest GET "http://192.168.1.212:5000/plugin/appkeys/request/tok" ∅
                  None 9;
                mkRequest GET "http://192.168.1.212:5000/api/printer" ∅ None 9];
        slept := 0;
        stdout := ["Got: %s None"; "Forbidden"] |})
  /\ main sample_str 1 (fresh (scripted script_main_too_deep)) =
    (Raised too_deep, test_client,
     {| server := scripted script_main_too_deep;
        log := [mkRequest GET "http://192.168.1.212:5000/plugin/appkeys/probe" ∅ None 9;
                mkRequest POST "http://192.168.1.212:5000/plugin/appkeys/request" ∅
                  (Some (VDict [("app", VStr "test"); ("user", VNone)])) 9;
                mkRequest GET "http://192.168.1.212:5000/plugin/appkeys/request/tok" ∅
                  None 9;
                mkRequest GET "http://192.168.1.212:5000/api/printer" ∅ None 9];
        slept := 0;
        stdout := ["Got: %s None"] |}).
Proof.
  split.
  - refine (proj1 (main_ignores_failed_handshake sample_str 1
                     (fresh (scripted script_main_immediate_200)) (VBool false) test_client
                     (first_polled (VStr "test") VNone 9 test_client
                        (fresh (scripted script_main_immediate_200)) "tok")
                     (mkResponse 403 (Some (VStr "Forbidden"))) _ _ _)
              (VStr "Forbidden") eq_refl);
      [reflexivity | discriminate | reflexivity].
  - refine (proj2 (proj2 (main_ignores_failed_handshake sample_str 1
                            (fresh (scripted script_main_too_deep)) (VBool false)
                            test_client
                            (first_polled (VStr "test") VNone 9 test_client
                               (fresh (scripted script_main_too_deep)) "tok")
                            (mkResponseWith 200 None too_deep) _ _ _))
              eq_refl eq_refl);
      [reflexivity | discriminate | reflexivity].
Defined.

(** X25: after a handshake that returned [True], [main] prints the key
    the server delivered and asks for the printer status with that key in
    the ["X-Api-Key"] header.  It then prints the status if the body
    parses, prints [False] if the parser raises a [ValueError], and
    raises what the parser raises if that is no [ValueError]. *)
Theorem main_after_approval str fuel w self1 w1 r :
  get_api_key fuel (VStr "test") VNone 9 test_client w =
    (Returned (VBool true), self1, w1) ->
  server w1 (length (log w1)) = Responded r ->
  exists key,
    approves (server w) key
    /\ let asked :=
         sent (printed ("Got: %s " +:+ str key) w1)
           (mkRequest GET "http://192.168.1.212:5000/api/printer"
              {[ "X-Api-Key" := key ]} None 9) in
       (forall status, body r = Some status ->
          main str fuel w =
            (Returned VNone, approved key test_client, printed (str status) asked))
       /\ (body r = None -> isinstance (decode_error r) ValueError = true ->
           main str fuel w =
             (Returned VNone, approved key test_client,
              printed (str (VBool false)) asked))
       /\ (body r = None -> isinstance (decode_error r) ValueError = false ->
           main str fuel w = (Raised (decode_error r), approved key test_client, asked)).
Proof.
  intros Hrun Hr.
  rewrite (main_after_handshake str fuel w _ self1 w1 r Hrun Hr).
  apply get_api_key_stores in Hrun as [[_ (key & Hkey & ->)] | [Hne _]];
    [|congruence].
  exists key. split; [exact Hkey|]. intros asked. repeat split.
  - intros status ->. reflexivity.
  - intros -> ->. reflexivity.
  - intros -> ->. reflexivity.
Qed.

Lemma main_after_approval_witness :
  exists key,
    approves (scripted (script_202_200 ++ [reply 200 (Some (VStr "Operational"))])) key
    /\ main sample_str 1
         (fresh (scripted (script_202_200 ++ [reply 200 (Some (VStr "Operational"))]))) =
         (Returned VNone, approved key test_client,
          printed (sample_str (VStr "Operational"))
            (sent (printed ("Got: %s " +:+ sample_str key)
                     (handshake_world (VStr "test") VNone 9 test_client
                        (fresh (scripted
                                  (script_202_200 ++ [reply 200 (Some (VStr "Operational"))])))
                        "tok" 2 1))
               (mkRequest GET "http://192.168.1.212:5000/api/printer"
                  {[ "X-Api-Key" := key ]} None 9))).
Proof.
  destruct (main_after_approval sample_str 1
              (fresh (scripted (script_202_200 ++ [reply 200 (Some (VStr "Operational"))])))
              (approved (VStr "k") test_client)
              (handshake_world (VStr "test") VNone 9 test_client
                 (fresh (scripted (script_202_200 ++ [reply 200 (Some (VStr "Operational"))])))
                 "tok" 2 1)
              (mkResponse 200 (Some (VStr "Operational"))))
    as (key & Hkey & Hparsed & _).
  - vm_compute. reflexivity.
  - reflexivity.
  - exists key. split; [exact Hkey|]. apply (Hparsed (VStr "Operational")). reflexivity.
Defined.

(** ** The configuration flow *)

(** X26: the user step never gets as far as an entry.  Whatever the
    platform, the input and the handler are, [async_step_user] does not
    return a create-entry result, and it leaves [_errors] empty: the
    call of [_test_credentials] passes three arguments to a method that
    takes two, so the branches that create the entry and that set the
    ["auth"] error are never reached. *)
Theorem async_step_user_never_creates platform user_input self :
  (forall title data,
     fst (async_step_user platform user_input self) <> Returned (CreateEntry title data))
  /\ _errors (snd (async_step_user platform user_input self)) = ∅.
Proof.
  unfold async_step_user, flow_bind, set_errors, flow_of, flow_ret, dict_item,
    _show_config_form, get_errors.
  destruct (current_entries platform) as [|entry entries];
    [|split; [discriminate | reflexivity]].
  destruct (domain_data platform); [split; [discriminate | reflexivity]|].
  destruct user_input as [d|]; [|split; [discriminate | reflexivity]].
  destruct (dict_get d "host") as [host|]; [|split; [discriminate | reflexivity]].
  destruct (dict_get d "port") as [port|]; [|split; [discriminate | reflexivity]].
  destruct (dict_get d "api_key") as [key|]; split; solve [discriminate | reflexivity].
Qed.

(** X27: an input that is given, on a platform that does not make the
    step abort, always ends in an exception: [KeyError] for the first of
    ["host"], ["port"], ["api_key"] that the input lacks (so the default
    argument, the empty [dict], raises [KeyError('host')]), and
    [TypeError] from the call of [_test_credentials] when it has all
    three. *)
Theorem async_step_user_raises platform d self :
  current_entries platform = [] ->
  domain_data platform = false ->
  exists e,
    async_step_user platform (Some d) self = (Raised e, flow_init)
    /\ match first_missing d ["host"; "port"; "api_key"] with
       | Some key => e = mkExn KeyError key
       | None => exn_class e = TypeError
       end.
Proof.
  intros He Hd. unfold async_step_user, flow_bind, set_errors, flow_of, dict_item.
  rewrite He, Hd. cbn [first_missing].
  destruct (dict_get d "host") as [host|]; [|eexists; split; reflexivity].
  destruct (dict_get d "port") as [port|]; [|eexists; split; reflexivity].
  destruct (dict_get d "api_key") as [key|]; [|eexists; split; reflexivity].
  eexists; split; reflexivity.
Qed.

Lemma async_step_user_raises_witness :
  (exists e,
     async_step_user idle (Some []) flow_init = (Raised e, flow_init)
     /\ e = mkExn KeyError "host")
  /\ (exists e,
        async_step_user idle
          (Some [("host", VStr "h"); ("port", VStr "81"); ("api_key", VStr "k")])
          flow_init = (Raised e, flow_init)
        /\ exn_class e = TypeError).
Proof.
  split.
  - apply (async_step_user_raises idle [] flow_init); reflexivity.
  - apply (async_step_user_raises idle
             [("host", VStr "h"); ("port", VStr "81"); ("api_key", VStr "k")] flow_init);
      reflexivity.
Defined.

Lemma form_fields_host_port user_input self :
  form_fields (fst (_show_config_form user_input self)) = ["host"; "port"].
Proof. destruct user_input; reflexivity. Qed.

(** X28: the form and the step that reads it do not agree.  The form of
    [_show_config_form] asks for ["host"] and ["port"] and never for
    ["api_key"]; an input with exactly the fields of the form therefore
    makes [async_step_user] raise [KeyError('api_key')]. *)
Theorem submitted_form_raises platform shown self0 d self :
  current_entries platform = [] ->
  domain_data platform = false ->
  map fst d = form_fields (fst (_show_config_form shown self0)) ->
  async_step_user platform (Some d) self = (Raised (mkExn KeyError "api_key"), flow_init).
Proof.
  intros He Hd Hfields. rewrite form_fields_host_port in Hfields.
  destruct d as [|[k1 v1] [|[k2 v2] [|]]]; try discriminate.
  cbn [map fst] in Hfields. injection Hfields as -> ->.
  unfold async_step_user, flow_bind, set_errors, flow_of, dict_item.
  rewrite He, Hd. reflexivity.
Qed.

Lemma submitted_form_raises_witness :
  async_step_user idle (Some [("host", VStr "192.168.1.212"); ("port", VStr "5000")])
    flow_init = (Raised (mkExn KeyError "api_key"), flow_init).
Proof.
  apply (submitted_form_raises idle None flow_init
           [("host", VStr "192.168.1.212"); ("port", VStr "5000")] flow_init);
    reflexivity.
Defined.

(** ** Request URLs, exactly *)

Lemma poll_while_202_log fuel app_token timeout :
  forall response self w result self' w',
    poll_while_202 fuel (VStr app_token) timeout response self w = (result, self', w') ->
    exists polls,
      log w' = (log w ++ replicate polls (poll_request self app_token timeout))%list.
Proof.
  induction fuel as [|fuel IH]; intros response self w result self' w' Hrun;
    cbn [poll_while_202] in Hrun.
  - exists 0%nat. cbn [replicate]. rewrite app_nil_r.
    destruct (status_code response =? 202); inversion Hrun; reflexivity.
  - destruct (status_code response =? 202);
      [|exists 0%nat; cbn [replicate]; rewrite app_nil_r; inversion Hrun; reflexivity].
    unfold _set_api_key in Hrun. run_method Hrun.
    fold (poll_request self app_token timeout) in Hrun.
    destruct (server w (length (log w))) as [r|e];
      [|exists 1%nat; inversion Hrun; reflexivity].
    destruct (status_code r =? 200).
    + exists 1%nat.
      destruct (body r) as [payload|]; [|inversion Hrun; reflexivity].
      destruct payload as [| | | | | |entries]; try (inversion Hrun; reflexivity).
      destruct (dict_get entries "api_key") as [key|]; inversion Hrun; reflexivity.
    + destruct (status_code r =? 404); [exists 1%nat; inversion Hrun; reflexivity|].
      apply IH in Hrun as [polls Hlog]. exists (S polls).
      rewrite Hlog. cbn [log asleep sent replicate].
      now rewrite <- app_assoc.
Qed.

Lemma get_api_key_log fuel app_name user_name timeout self w result self' w' :
  get_api_key fuel app_name user_name timeout self w = (result, self', w') ->
  exists new,
    log w' = (log w ++ new)%list
    /\ handshake_log app_name user_name timeout self w new.
Proof.
  intros Hrun. unfold get_api_key in Hrun.
  unfold bind at 1, get_self at 1, bind at 1, try_except, requests_get at 1, http at 1
    in Hrun.
  fold (probe_request self timeout) in Hrun.
  assert (Hone : forall r s, (r, s, sent w (probe_request self timeout)) = (result, self', w') ->
    exists new, log w' = (log w ++ new)%list
      /\ handshake_log app_name user_name timeout self w new).
  { intros r s H. inversion H; subst. eexists; split; [reflexivity | now left]. }
  destruct (server w (length (log w))) as [r1|e1].
  2:{ cbn [first_handler] in Hrun.
      destruct (isinstance e1 ReadTimeout); [now apply Hone in Hrun|].
      destruct (isinstance e1 ConnectionError); now apply Hone in Hrun. }
  destruct (status_code r1 =? 204); [|now apply Hone in Hrun].
  unfold bind at 1, get_self at 1, bind at 1, requests_post at 1, http at 1 in Hrun.
  fold (token_request self app_name user_name timeout) in Hrun.
  rewrite server_sent, length_log_sent in Hrun.
  assert (Htwo : forall r s,
    (r, s, sent (sent w (probe_request self timeout))
             (token_request self app_name user_name timeout)) = (result, self', w') ->
    exists new, log w' = (log w ++ new)%list
      /\ handshake_log app_name user_name timeout self w new).
  { intros r s H. inversion H; subst.
    exists [probe_request self timeout; token_request self app_name user_name timeout].
    split; [cbn [log sent]; now rewrite <- app_assoc | right; now left]. }
  destruct (server w (S (length (log w)))) as [r2|e2] eqn:H2; [|now apply Htwo in Hrun].
  destruct (status_code r2 =? 201); [|now apply Htwo in Hrun].
  unfold bind at 1, json at 1 in Hrun.
  destruct (body r2) as [payload|] eqn:Hbody; [|now apply Htwo in Hrun].
  unfold ret at 1, bind at 1, getitem at 1 in Hrun.
  destruct payload as [| | | | | |entries];
    try (unfold raise at 1 in Hrun; now apply Htwo in Hrun).
  destruct (dict_get entries "app_token") as [token|] eqn:Htoken;
    [|unfold raise at 1 in Hrun; now apply Htwo in Hrun].
  unfold ret at 1, bind at 1, get_self at 1, bind at 1, str_add at 1 in Hrun.
  destruct token as [| | | |app_token| |];
    try (unfold raise at 1 in Hrun; now apply Htwo in Hrun).
  unfold ret at 1, bind at 1, requests_get at 1, http at 1 in Hrun.
  fold (poll_request self app_token timeout) in Hrun.
  assert (Hfield : field r2 "app_token" = Some (VStr app_token))
    by (unfold field; now rewrite Hbody).
  rewrite !server_sent, !length_log_sent in Hrun.
  destruct (server w (S (S (length (log w))))) as [r3|e3].
  - apply poll_while_202_log in Hrun as [polls Hlog].
    eexists. split; [|right; right; exists r2, app_token, polls; eauto].
    rewrite Hlog. cbn [log sent replicate]. now rewrite <- !app_assoc.
  - inversion Hrun; subst.
    eexists. split; [|right; right; exists r2, app_token, 0%nat; eauto].
    cbn [log sent replicate]. now rewrite <- !app_assoc.
Qed.

Lemma map_replicate {A B} (f : A -> B) (n : nat) (x : A) :
  map f (replicate n x) = replicate n (f x).
Proof. induction n as [|n IH]; [reflexivity|]. cbn [replicate map]. now rewrite IH. Qed.

Lemma handshake_log_urls app_name user_name timeout self w new :
  handshake_log app_name user_name timeout self w new ->
  handshake_urls (base_url self) w (map rq_url new).
Proof.
  intros [-> | [-> | (r2 & app_token & polls & H2 & Hf & ->)]].
  - now left.
  - right; now left.
  - right; right. exists r2, app_token, polls. split; [exact H2|]. split; [exact Hf|].
    rewrite map_app. cbn [map app]. do 2 f_equal.
    change (poll_request self app_token timeout
              :: replicate polls (poll_request self app_token timeout))
      with (replicate (S polls) (poll_request self app_token timeout)).
    rewrite map_replicate. cbn [poll_request rq_url]. now rewrite append_assoc.
Qed.

Lemma deregister_log self w :
  log (snd (deregister self w)) = (log w ++ [revoke_request self])%list.
Proof.
  destruct (server w (length (log w))) as [r | e] eqn:Hs.
  - rewrite (deregister_responded self w r Hs).
    destruct (status_code r =? 204); reflexivity.
  - rewrite (deregister_failed self w e Hs).
    destruct (isinstance e ConnectionError); reflexivity.
Qed.

Lemma post_job_command_log action self w :
  log (snd (post_job_command action self w)) =
    (log w ++ if connected self then [job_request self action] else [])%list.
Proof.
  destruct (connected self) eqn:Hc.
  - rewrite (post_job_command_connected action self w Hc).
    destruct (server w (length (log w))) as [r|e]; [reflexivity|].
    destruct (isinstance e ConnectionError); reflexivity.
  - unfold post_job_command, bind, get_self, ret. rewrite Hc. cbn [snd].
    now rewrite app_nil_r.
Qed.

Lemma call_sends c self w :
  exists new,
    log (snd (call c self w)) = (log w ++ new)%list
    /\ sends_to (base_url self) c self w (map rq_url new).
Proof.
  destruct c as [key | fuel app_name user_name timeout | | m | | |];
    cbn [call sends_to].
  - exists []. split; [|reflexivity]. unfold as_obj, bind. rewrite _set_api_key_spec.
    cbn [ret snd]. now rewrite app_nil_r.
  - unfold as_obj, bind.
    destruct (get_api_key fuel app_name user_name timeout self w)
      as [[result self'] w'] eqn:Hrun.
    apply get_api_key_log in Hrun as (new & Hlog & Hnew).
    exists new. split; [|now apply (handshake_log_urls app_name user_name timeout)].
    destruct result; exact Hlog.
  - exists [revoke_request self]. split; [|reflexivity].
    rewrite <- deregister_log. unfold as_obj, bind.
    destruct (deregister self w) as [[[v|e|] self'] w']; reflexivity.
  - exists [read_request self m]. split; [|reflexivity].
    unfold as_obj, bind. rewrite read_sub_path_correct.
    destruct (get_json_or_False (read_sub_path m) self w) as [[result self'] w'] eqn:Hrun.
    apply get_json_or_False_effect in Hrun as (_ & _ & ->).
    destruct result; reflexivity.
  - exists (if connected self then [job_request self "pause"] else []).
    split; [apply post_job_command_log | now destruct (connected self)].
  - exists (if connected self then [job_request self "resume"] else []).
    split; [apply post_job_command_log | now destruct (connected self)].
  - exists [settings_request self]. split; [|reflexivity].
    destruct (set_printer_settings self w) as [[result self'] w'] eqn:Hrun.
    now apply set_printer_settings_effect in Hrun as (_ & _ & ->).
Qed.

(** C10: [OctoPrint("h", 81, "/x/")] has the base URL ["http://h:81/x/"],
    and after any series of calls on that object, whatever the server
    did, the requests of a further call go, in this order and with no
    other request between them, to that base URL followed by the
    sub-path of the call: one request for a read method, for
    [deregister] and for [set_printer_settings]; one for a command on a
    connected object and none otherwise; none for [_set_api_key]; and for
    the handshake the probe, then the token request, then the polls, each
    to the sub-path that ends in the token which the answer to the token
    request delivered. *)
Theorem base_url_prefixes_every_request :
  base_url (__init__ "h" 81 "/x/") = "http://h:81/x/"
  /\ forall srv cs c,
       let self := fst (after_calls cs (__init__ "h" 81 "/x/") (fresh srv)) in
       let w := snd (after_calls cs (__init__ "h" 81 "/x/") (fresh srv)) in
       exists new,
         log (snd (call c self w)) = (log w ++ new)%list
         /\ sends_to "http://h:81/x/" c self w (map rq_url new).
Proof.
  split; [reflexivity|]. intros srv cs c self w.
  assert (Hbase : base_url self = "http://h:81/x/")
    by (unfold self; now rewrite after_calls_base_url).
  rewrite <- Hbase. apply call_sends.
Qed.
